(** * Rupee Loom: budget progress, dashboard statistics, data refresh and
      quick-expense submission

    A shallow embedding of the client-side logic of the Rupee Loom expense
    tracker (pages/Budgets.tsx, pages/Dashboard.tsx, pages/QuickExpense.tsx,
    contexts/DataContext.tsx, lib/supabase.ts) together with the properties
    its specification states about it.

    Conventions of the embedding.
    - A JavaScript [number] is an IEEE 754 binary64 value, the primitive
      [float] of the prover: [+], [-], [*], [/] and [<] are the operations
      of the processor, with their rounding, their infinities and NaN.
    - A JavaScript [Date] is its time value: [Some t] with [t] in
      milliseconds since the epoch, or [None] for an Invalid Date (NaN).
      Time values of wall-clock readings and stored timestamps lie far inside
      the range that TimeClip lets through, so TimeClip is left out.
    - The host's time zone is a parameter: the function LocalTZA of
      ECMAScript, which gives the offset from UTC in force at an instant, or
      at a local time.  It may change from one instant to another, as it
      does where daylight saving is observed.
    - React state is threaded explicitly: a setter is a record update. *)

From Stdlib Require Import Floats.
From Stdlib Require Import ZArith List String Ascii Bool Lia.
Import ListNotations.

Set Warnings "-inexact-float".

Local Open Scope Z_scope.

(* ================================================================== *)
(** ** ECMAScript time arithmetic *)
(* ================================================================== *)

Module ES.

Definition msPerDay : Z := 86400000.
Definition msPerHour : Z := 3600000.
Definition msPerMinute : Z := 60000.
Definition msPerSecond : Z := 1000.

Definition Day (t : Z) : Z := t / msPerDay.
Definition TimeWithinDay (t : Z) : Z := t mod msPerDay.

(** Day number (days since 1970-01-01) of day [d] of month [m] (1..12) of
    year [y] in the proleptic Gregorian calendar. *)
Definition days_from_civil (y m d : Z) : Z :=
  let y' := if m <=? 2 then y - 1 else y in
  let era := y' / 400 in
  let yoe := y' - era * 400 in
  let mp := if m <=? 2 then m + 9 else m - 3 in
  let doy := (153 * mp + 2) / 5 + d - 1 in
  let doe := yoe * 365 + yoe / 4 - yoe / 100 + doy in
  era * 146097 + doe - 719468.

(** The inverse: (year, month 1..12, day of month) of a day number. *)
Definition civil_from_days (z : Z) : Z * Z * Z :=
  let z := z + 719468 in
  let era := z / 146097 in
  let doe := z - era * 146097 in
  let yoe := (doe - doe / 1460 + doe / 36524 - doe / 146096) / 365 in
  let y := yoe + era * 400 in
  let doy := doe - (365 * yoe + yoe / 4 - yoe / 100) in
  let mp := (5 * doy + 2) / 153 in
  let d := doy - (153 * mp + 2) / 5 + 1 in
  let m := if mp <? 10 then mp + 3 else mp - 9 in
  (if m <=? 2 then y + 1 else y, m, d).

Definition YearFromTime (t : Z) : Z :=
  let '(y, _, _) := civil_from_days (Day t) in y.

(** Month index, 0 for January. *)
Definition MonthFromTime (t : Z) : Z :=
  let '(_, m, _) := civil_from_days (Day t) in m - 1.

Definition DateFromTime (t : Z) : Z :=
  let '(_, _, d) := civil_from_days (Day t) in d.

Definition HourFromTime (t : Z) : Z := (t / msPerHour) mod 24.
Definition MinFromTime (t : Z) : Z := (t / msPerMinute) mod 60.
Definition SecFromTime (t : Z) : Z := (t / msPerSecond) mod 60.
Definition msFromTime (t : Z) : Z := t mod msPerSecond.

Definition MakeTime (hour min sec ms : Z) : Z :=
  hour * msPerHour + min * msPerMinute + sec * msPerSecond + ms.

(** [month] is a month index and may lie outside 0..11: it carries into
    the year. *)
Definition MakeDay (year month date : Z) : Z :=
  let ym := year + month / 12 in
  let mn := month mod 12 in
  days_from_civil ym (mn + 1) 1 + date - 1.

Definition MakeDate (day time : Z) : Z := day * msPerDay + time.

(** The time zone of the host: [LocalTZA t true] is the offset of local
    time from UTC, in milliseconds, at the instant [t]; [LocalTZA t false]
    is the offset by which the local time [t] is read.  (A local time that
    a clock change skips or repeats is read with the offset in force before
    the change.) *)
Definition TimeZone : Type := Z -> bool -> Z.

Definition LocalTime (LocalTZA : TimeZone) (t : Z) : Z := t + LocalTZA t true.
Definition UTC (LocalTZA : TimeZone) (t : Z) : Z := t - LocalTZA t false.

(** A host whose offset never changes. *)
Definition fixedOffset (tza : Z) : TimeZone := fun _ _ => tza.

(** What the properties below ask of the host's time zone: the offset stays
    within a day either way, and no clock change is so large that a local
    time, read as an instant and shown again as local time, lands on another
    day.  A fixed offset meets both, and so does a zone that moves its
    clocks by an hour in the small hours. *)
Definition regular (LocalTZA : TimeZone) : Prop :=
  (forall t isUTC, - msPerDay <= LocalTZA t isUTC <= msPerDay)
  /\ (forall t, Day (LocalTime LocalTZA (UTC LocalTZA t)) = Day t).

End ES.

(* ================================================================== *)
(** ** The Date object *)
(* ================================================================== *)

(** A Date is its time value; [None] is the Invalid Date. *)
Definition Date : Type := option Z.

Module DateProto.
Import ES.

Definition getTime (d : Date) : option Z := d.

Definition getFullYear (zone : ES.TimeZone) (d : Date) : option Z :=
  option_map (fun tv => YearFromTime (LocalTime zone tv)) d.

Definition getMonth (zone : ES.TimeZone) (d : Date) : option Z :=
  option_map (fun tv => MonthFromTime (LocalTime zone tv)) d.

(** [date.setDate(dt)] *)
Definition setDate (zone : ES.TimeZone) (dt : Z) (d : Date) : Date :=
  match d with
  | None => None
  | Some tv =>
      let t := LocalTime zone tv in
      let newDate :=
        MakeDate (MakeDay (YearFromTime t) (MonthFromTime t) dt)
                 (TimeWithinDay t) in
      Some (UTC zone newDate)
  end.

(** [date.setHours(hour, min, sec, ms)] *)
Definition setHours (zone : ES.TimeZone) (hour min sec ms : Z) (d : Date)
  : Date :=
  match d with
  | None => None
  | Some tv =>
      let t := LocalTime zone tv in
      let date := MakeDate (Day t) (MakeTime hour min sec ms) in
      Some (UTC zone date)
  end.

(** [date.setFullYear(year, month, dt)]; on an Invalid Date the time
    within the day is taken as +0. *)
Definition setFullYear (zone : ES.TimeZone) (year month dt : option Z)
           (d : Date) : Date :=
  match year, month, dt with
  | Some y, Some m, Some dd =>
      let t := match d with Some tv => LocalTime zone tv | None => 0 end in
      let newDate := MakeDate (MakeDay y m dd) (TimeWithinDay t) in
      Some (UTC zone newDate)
  | _, _, _ => None
  end.

(** Relational comparison of time values; false as soon as one side is
    NaN. *)
Definition leb (a b : option Z) : bool :=
  match a, b with
  | Some x, Some y => x <=? y
  | _, _ => false
  end.

Definition geb (a b : option Z) : bool := leb b a.

End DateProto.

(* ================================================================== *)
(** ** date-fns *)
(* ================================================================== *)

Module DateFns.
Import DateProto.

(** [startOfMonth]: clone the date, [setDate(1)], [setHours(0, 0, 0, 0)]. *)
Definition startOfMonth (zone : ES.TimeZone) (dirtyDate : Date) : Date :=
  let date := dirtyDate in
  let date := setDate zone 1 date in
  let date := setHours zone 0 0 0 0 date in
  date.

(** [endOfMonth]: clone the date, move it to day 0 of the following month
    (the last day of this one), [setHours(23, 59, 59, 999)]. *)
Definition endOfMonth (zone : ES.TimeZone) (dirtyDate : Date) : Date :=
  let date := dirtyDate in
  let month := getMonth zone date in
  let date :=
    setFullYear zone (getFullYear zone date)
                (option_map (fun m => m + 1) month) (Some 0) date in
  let date := setHours zone 23 59 59 999 date in
  date.

Record Interval : Type := { start : Date; end_ : Date }.

(** [[a, b].sort((x, y) => x - y)]: a NaN difference leaves the order. *)
Definition sort2 (a b : option Z) : option Z * option Z :=
  match a, b with
  | Some x, Some y => if y <? x then (b, a) else (a, b)
  | _, _ => (a, b)
  end.

(** [isWithinInterval(date, {start, end})]: both ends belong to the
    interval.  (Releases before 3.0 raise a RangeError instead of ordering
    the ends when [start] is after [end]; the two agree whenever
    [start <= end], which [month_ends_ordered] below shows for the windows
    this program builds.) *)
Definition isWithinInterval (date : Date) (interval : Interval) : bool :=
  let time := getTime date in
  let '(startTime, endTime) :=
    sort2 (getTime (start interval)) (getTime (end_ interval)) in
  geb time startTime && leb time endTime.

End DateFns.

(* ================================================================== *)
(** ** Date strings *)
(* ================================================================== *)

(** [new Date(string)] and [toISOString] for the ECMAScript date-time string
    format, [YYYY-MM-DD] optionally followed by [THH:mm], [THH:mm:ss] or
    [THH:mm:ss.f...] and by [Z] or [+HH:mm] / [-HH:mm].  This is what the
    store returns for a [timestamptz] column and what a date input yields.
    A date without a time is read as UTC, a date and time without an offset
    as local time.  A day number up to 31 is taken in every month and
    carries into the next one, as V8 does.  Any other string is an Invalid
    Date here. *)
Module DateString.
Import ES.

Definition bind {A B : Type} (o : option A) (k : A -> option B)
  : option B :=
  match o with
  | Some a => k a
  | None => None
  end.

Notation "x <- e ;; k" := (bind e (fun x => k))
  (at level 61, e at next level, right associativity).
Notation "' p <- e ;; k" := (bind e (fun p => k))
  (at level 61, p pattern, e at next level, right associativity).

Definition digit (c : ascii) : option Z :=
  let n := Z.of_nat (nat_of_ascii c) in
  if (48 <=? n) && (n <=? 57) then Some (n - 48) else None.

(** Exactly [k] decimal digits. *)
Fixpoint digits (k : nat) (acc : Z) (s : list ascii)
  : option (Z * list ascii) :=
  match k with
  | O => Some (acc, s)
  | S k' =>
      match s with
      | c :: r =>
          match digit c with
          | Some v => digits k' (acc * 10 + v) r
          | None => None
          end
      | [] => None
      end
  end.

Definition expect (c : ascii) (s : list ascii) : option (list ascii) :=
  match s with
  | x :: r => if Ascii.eqb x c then Some r else None
  | [] => None
  end.

(** The digits after the decimal point: the first three are the
    milliseconds, further ones are dropped.  Returns the value read, the
    number of digits that counted, and the rest. *)
Fixpoint fraction (s : list ascii) (taken : nat) (acc : Z)
  : Z * nat * list ascii :=
  match s with
  | c :: r =>
      match digit c with
      | Some v =>
          if (taken <? 3)%nat then fraction r (S taken) (acc * 10 + v)
          else fraction r taken acc
      | None => (acc, taken, s)
      end
  | [] => (acc, taken, s)
  end.

Definition milliseconds (s : list ascii) : option (Z * list ascii) :=
  match fraction s 0 0 with
  | (_, O, _) => None
  | (v, 1%nat, r) => Some (v * 100, r)
  | (v, 2%nat, r) => Some (v * 10, r)
  | (v, _, r) => Some (v, r)
  end.

(** The UTC offset: [Some off] in milliseconds when one is written, [None]
    when the string ends without one. *)
Definition offset (s : list ascii) : option (option Z) :=
  match s with
  | [] => Some None
  | c :: r =>
      if Ascii.eqb c "Z" then
        match r with [] => Some (Some 0) | _ => None end
      else
        sign <- (if Ascii.eqb c "+" then Some 1
                 else if Ascii.eqb c "-" then Some (-1) else None) ;;
        '(hh, r1) <- digits 2 0 r ;;
        r2 <- expect ":" r1 ;;
        '(mm, r3) <- digits 2 0 r2 ;;
        match r3 with
        | [] =>
            if (hh <=? 23) && (mm <=? 59)
            then Some (Some (sign * (hh * msPerHour + mm * msPerMinute)))
            else None
        | _ => None
        end
  end.

(** Seconds and fraction of a time of day, when written. *)
Definition seconds (s : list ascii) : option (Z * Z * list ascii) :=
  match expect ":" s with
  | None => Some (0, 0, s)
  | Some r =>
      '(ss, r1) <- digits 2 0 r ;;
      match expect "." r1 with
      | None => Some (ss, 0, r1)
      | Some r2 => '(ms, r3) <- milliseconds r2 ;; Some (ss, ms, r3)
      end
  end.

Definition valid_time (hh mm ss ms : Z) : bool :=
  ((hh <=? 23) && (mm <=? 59) && (ss <=? 59))
  || ((hh =? 24) && (mm =? 0) && (ss =? 0) && (ms =? 0)).

Definition parse (zone : ES.TimeZone) (str : string) : Date :=
  let s := list_ascii_of_string str in
  '(y, s1) <- digits 4 0 s ;;
  s2 <- expect "-" s1 ;;
  '(mo, s3) <- digits 2 0 s2 ;;
  s4 <- expect "-" s3 ;;
  '(d, s5) <- digits 2 0 s4 ;;
  if negb ((1 <=? mo) && (mo <=? 12) && (1 <=? d) && (d <=? 31)) then None
  else
    let day := MakeDay y (mo - 1) d in
    match s5 with
    | [] => Some (MakeDate day 0)
    | c :: s6 =>
        if negb (Ascii.eqb c "T") then None
        else
          '(hh, s7) <- digits 2 0 s6 ;;
          s8 <- expect ":" s7 ;;
          '(mm, s9) <- digits 2 0 s8 ;;
          '(ss, ms, s10) <- seconds s9 ;;
          off <- offset s10 ;;
          if negb (valid_time hh mm ss ms) then None
          else
            let t := MakeDate day (MakeTime hh mm ss ms) in
            match off with
            | Some o => Some (t - o)
            | None => Some (UTC zone t)
            end
    end.

(** Zero-padded decimal of width [w] for [0 <= n]. *)
Fixpoint pad (w : nat) (n : Z) : string :=
  match w with
  | O => EmptyString
  | S w' =>
      pad w' (n / 10)
      ++ String (ascii_of_nat (48 + Z.to_nat (n mod 10))) EmptyString
  end.

Definition year_string (y : Z) : string :=
  if (0 <=? y) && (y <=? 9999) then pad 4 y
  else ((if (y <? 0)%Z then "-" else "+") ++ pad 6 (Z.abs y))%string.

(** [date.toISOString()]; [None] is the RangeError that an Invalid Date
    raises. *)
Definition toISOString (d : Date) : option string :=
  match d with
  | None => None
  | Some t =>
      Some (year_string (YearFromTime t) ++ "-"
            ++ pad 2 (MonthFromTime t + 1) ++ "-"
            ++ pad 2 (DateFromTime t) ++ "T"
            ++ pad 2 (HourFromTime t) ++ ":"
            ++ pad 2 (MinFromTime t) ++ ":"
            ++ pad 2 (SecFromTime t) ++ "."
            ++ pad 3 (msFromTime t) ++ "Z")%string
  end.

End DateString.

(** [new Date(value)] for a string. *)
Definition newDate (zone : ES.TimeZone) (value : string) : Date :=
  DateString.parse zone value.

(* ================================================================== *)
(** ** Numbers *)
(* ================================================================== *)

(** A [number] is a [float].  [Math.min] and [Math.max] of two numbers: NaN
    as soon as one of them is NaN, and -0 counts as smaller than +0. *)
Module Math.
Local Open Scope float_scope.

Definition min (x y : float) : float :=
  match x ?= y with
  | FLt => x
  | FGt => y
  | FEq => if get_sign x then x else y
  | FNotComparable => nan
  end.

Definition max (x y : float) : float :=
  match x ?= y with
  | FLt => y
  | FGt => x
  | FEq => if get_sign x then y else x
  | FNotComparable => nan
  end.

End Math.

(** [a > b] *)
Definition gtb (a b : float) : bool := (b <? a)%float.

(* ================================================================== *)
(** ** Database types (lib/supabase.ts) *)
(* ================================================================== *)

(** An optional or nullable column is an [option]; a timestamp column is
    the string the store returns. *)

Module Category.
Record t : Type := {
  id : string;
  user_id : string;
  name : string;
  icon : string;
  color : string;
  is_default : bool;
  created_at : string
}.
End Category.

Module Expense.
Record t : Type := {
  id : string;
  user_id : string;
  category_id : option string;
  amount : float;
  description : string;
  date : string;
  payment_method : string;
  receipt_url : option string;
  location : option string;
  tags : list string;
  is_regret : bool;
  regret_reason : option string;
  regret_intensity : option float;
  created_at : string;
  category : option Category.t
}.
End Expense.

Inductive Period : Type := weekly | monthly | yearly.

Module Budget.
Record t : Type := {
  id : string;
  user_id : string;
  category_id : string;
  amount : float;
  period : Period;
  start_date : string;
  end_date : string;
  is_active : bool;
  created_at : string;
  category : option Category.t
}.
End Budget.

Inductive Frequency : Type :=
| freq_daily | freq_weekly | freq_monthly | freq_yearly.

Module RecurringPayment.
Record t : Type := {
  id : string;
  user_id : string;
  category_id : option string;
  name : string;
  amount : float;
  frequency : Frequency;
  next_due_date : string;
  is_active : bool;
  auto_pay : bool;
  provider : option string;
  last_paid : option string;
  created_at : string;
  category : option Category.t
}.
End RecurringPayment.

Inductive DebtType : Type := loan | credit_card | mortgage | other.

Module Debt.
Record t : Type := {
  id : string;
  user_id : string;
  name : string;
  total_amount : float;
  remaining_amount : float;
  interest_rate : option float;
  emi_amount : option float;
  due_date : option string;
  lender : option string;
  debt_type : DebtType;
  created_at : string
}.
End Debt.

Inductive ChallengeType : Type := fixed_amount | percentage_type | daily_save.

Module SavingsChallenge.
Record t : Type := {
  id : string;
  user_id : string;
  title : string;
  description : option string;
  target_amount : float;
  current_amount : float;
  start_date : string;
  end_date : string;
  is_completed : bool;
  challenge_type : ChallengeType;
  created_at : string
}.
End SavingsChallenge.

Module RegretPurchase.
Record t : Type := {
  id : string;
  user_id : string;
  expense_id : string;
  regret_reason : string;
  intensity : float;
  emotional_trigger : option string;
  alternative_action : option string;
  lesson_learned : option string;
  created_at : string;
  expense : option Expense.t
}.
End RegretPurchase.

Inductive InsightType : Type :=
| spending_pattern | budget_alert | savings_tip | regret_analysis.

Module Insight.
Record t : Type := {
  id : string;
  user_id : string;
  insight_type : InsightType;
  title : string;
  content : string;
  data : string;  (* the JSON payload *)
  is_read : bool;
  created_at : string
}.
End Insight.

Module Profile.
Record t : Type := {
  id : string;
  email : string;
  full_name : option string;
  avatar_url : option string;
  currency : string;
  language : string;
  timezone : string;
  theme : string;
  monthly_income : option float;
  created_at : string;
  updated_at : string
}.
End Profile.

(** The signed-in user of the auth context. *)
Module User.
Record t : Type := { id : string }.
End User.

(** [a === b] for a nullable string and a string. *)
Definition strict_eq (a : option string) (b : string) : bool :=
  match a with
  | Some x => String.eqb x b
  | None => false
  end.

(** [list.reduce((sum, x) => sum + amount(x), 0)] *)
Definition reduce_sum {A : Type} (amount : A -> float) (l : list A) : float :=
  fold_left (fun sum x => (sum + amount x)%float) l 0%float.

(* ================================================================== *)
(** ** pages/Budgets.tsx: the budget progress calculator *)
(* ================================================================== *)

Module Budgets.
Import DateFns.

(** [{...budget, spent, remaining, percentage, isOverBudget}] *)
Record BudgetProgress : Type := {
  id : string;
  user_id : string;
  category_id : string;
  amount : float;
  period : Period;
  start_date : string;
  end_date : string;
  is_active : bool;
  created_at : string;
  category : option Category.t;
  spent : float;
  remaining : float;
  percentage : float;
  isOverBudget : bool
}.

(** The [categoryExpenses] of one budget. *)
Definition categoryExpenses (zone : ES.TimeZone)
           (monthStart monthEnd : Date) (expenses : list Expense.t)
           (budget : Budget.t)
  : list Expense.t :=
  filter
    (fun expense =>
       strict_eq (Expense.category_id expense) (Budget.category_id budget)
       && isWithinInterval (newDate zone (Expense.date expense))
            {| start := monthStart; end_ := monthEnd |})
    expenses.

(** The body of [budgets.map(budget => ...)]. *)
Definition progressOf (zone : ES.TimeZone)
           (monthStart monthEnd : Date) (expenses : list Expense.t)
           (budget : Budget.t)
  : BudgetProgress :=
  let categoryExpenses :=
    categoryExpenses zone monthStart monthEnd expenses budget in
  let spent := reduce_sum Expense.amount categoryExpenses in
  let remaining := (Budget.amount budget - spent)%float in
  let percentage := ((spent / Budget.amount budget) * 100)%float in
  {| id := Budget.id budget;
     user_id := Budget.user_id budget;
     category_id := Budget.category_id budget;
     amount := Budget.amount budget;
     period := Budget.period budget;
     start_date := Budget.start_date budget;
     end_date := Budget.end_date budget;
     is_active := Budget.is_active budget;
     created_at := Budget.created_at budget;
     category := Budget.category budget;
     spent := spent;
     remaining := remaining;
     percentage := Math.min percentage 100;
     isOverBudget := gtb spent (Budget.amount budget) |}.

(** [budgetProgress], evaluated when the clock reads [now]. *)
Definition budgetProgress (zone : ES.TimeZone) (now : Z)
           (budgets : list Budget.t) (expenses : list Expense.t)
  : list BudgetProgress :=
  let currentMonth : Date := Some now in
  let monthStart := startOfMonth zone currentMonth in
  let monthEnd := endOfMonth zone currentMonth in
  map (progressOf zone monthStart monthEnd expenses) budgets.

(** The budget fields of an output record. *)
Definition budgetOf (p : BudgetProgress) : Budget.t :=
  {| Budget.id := id p;
     Budget.user_id := user_id p;
     Budget.category_id := category_id p;
     Budget.amount := amount p;
     Budget.period := period p;
     Budget.start_date := start_date p;
     Budget.end_date := end_date p;
     Budget.is_active := is_active p;
     Budget.created_at := created_at p;
     Budget.category := category p |}.

(** The values of the budget form. *)
Record BudgetFormData : Type := {
  form_category_id : string;
  form_amount : float;
  form_period : Period
}.

(** The [budgetData] object written to the store. *)
Record BudgetData : Type := {
  data_user_id : string;
  data_category_id : string;
  data_amount : float;
  data_period : Period;
  data_start_date : string;
  data_end_date : string
}.

(** What the handlers of the page do, in order. *)
Inductive Event : Type :=
| SetIsSubmitting (b : bool)
| Update (id : string) (budgetData : BudgetData)
| Insert (rows : list BudgetData)
| Delete (id : string)
| ToastSuccess (message : string)
| ToastError (message : string)
| ConsoleError
| Reset
| SetValueCategory (v : string)
| SetValueAmount (v : float)
| SetValuePeriod (v : Period)
| SetShowForm (b : bool)
| SetEditingBudget (b : option Budget.t)
| RefreshData.

(** The error, if any, that the store answers a write with. *)
Record Store : Type := {
  update : string -> BudgetData -> option string;
  insert : list BudgetData -> option string;
  delete : string -> option string
}.

(** [onSubmit], run when the clock reads [now]. *)
Definition onSubmit (zone : ES.TimeZone) (now : Z) (user : option User.t)
           (editingBudget : option Budget.t) (store : Store)
           (data : BudgetFormData) : list Event :=
  match user with
  | None => []
  | Some user =>
      [SetIsSubmitting true]
      ++ (let currentMonth : Date := Some now in
          match DateString.toISOString (startOfMonth zone currentMonth),
                DateString.toISOString (endOfMonth zone currentMonth) with
          | Some startDate, Some endDate =>
              let budgetData :=
                {| data_user_id := User.id user;
                   data_category_id := form_category_id data;
                   data_amount := form_amount data;
                   data_period := form_period data;
                   data_start_date := startDate;
                   data_end_date := endDate |} in
              let saved :=
                [Reset; SetShowForm false; SetEditingBudget None;
                 RefreshData] in
              match editingBudget with
              | Some b =>
                  Update (Budget.id b) budgetData
                  :: match update store (Budget.id b) budgetData with
                     | Some message => [ConsoleError; ToastError message]
                     | None =>
                         ToastSuccess "Budget updated successfully!" :: saved
                     end
              | None =>
                  Insert [budgetData]
                  :: match insert store [budgetData] with
                     | Some message => [ConsoleError; ToastError message]
                     | None =>
                         ToastSuccess "Budget created successfully!" :: saved
                     end
              end
          | _, _ => [ConsoleError; ToastError "Invalid time value"]
          end)
      ++ [SetIsSubmitting false]
  end.

Definition handleEdit (budget : Budget.t) : list Event :=
  [SetEditingBudget (Some budget);
   SetValueCategory (Budget.category_id budget);
   SetValueAmount (Budget.amount budget);
   SetValuePeriod (Budget.period budget);
   SetShowForm true].

(** [handleDelete]; [confirmed] is the answer to the confirmation
    dialog. *)
Definition handleDelete (confirmed : bool) (store : Store)
           (budgetId : string) : list Event :=
  if negb confirmed then []
  else
    Delete budgetId
    :: match delete store budgetId with
       | Some message => [ConsoleError; ToastError message]
       | None => [ToastSuccess "Budget deleted successfully!"; RefreshData]
       end.

Definition handleCancel : list Event :=
  [Reset; SetShowForm false; SetEditingBudget None].

(** The state of the page that the handlers act on; a form value is
    [None] until it is set ([useForm] is given no default values). *)
Record UI : Type := {
  showForm : bool;
  editingBudget : option Budget.t;
  isSubmitting : bool;
  value_category_id : option string;
  value_amount : option float;
  value_period : option Period
}.

Definition initialUI : UI :=
  {| showForm := false; editingBudget := None; isSubmitting := false;
     value_category_id := None; value_amount := None;
     value_period := None |}.

(** The effect of one event on the state of the page. *)
Definition apply (ui : UI) (e : Event) : UI :=
  match e with
  | SetIsSubmitting b =>
      {| showForm := showForm ui; editingBudget := editingBudget ui;
         isSubmitting := b;
         value_category_id := value_category_id ui;
         value_amount := value_amount ui;
         value_period := value_period ui |}
  | Reset =>
      {| showForm := showForm ui; editingBudget := editingBudget ui;
         isSubmitting := isSubmitting ui;
         value_category_id := None; value_amount := None;
         value_period := None |}
  | SetValueCategory v =>
      {| showForm := showForm ui; editingBudget := editingBudget ui;
         isSubmitting := isSubmitting ui;
         value_category_id := Some v;
         value_amount := value_amount ui;
         value_period := value_period ui |}
  | SetValueAmount v =>
      {| showForm := showForm ui; editingBudget := editingBudget ui;
         isSubmitting := isSubmitting ui;
         value_category_id := value_category_id ui;
         value_amount := Some v;
         value_period := value_period ui |}
  | SetValuePeriod v =>
      {| showForm := showForm ui; editingBudget := editingBudget ui;
         isSubmitting := isSubmitting ui;
         value_category_id := value_category_id ui;
         value_amount := value_amount ui;
         value_period := Some v |}
  | SetShowForm b =>
      {| showForm := b; editingBudget := editingBudget ui;
         isSubmitting := isSubmitting ui;
         value_category_id := value_category_id ui;
         value_amount := value_amount ui;
         value_period := value_period ui |}
  | SetEditingBudget b =>
      {| showForm := showForm ui; editingBudget := b;
         isSubmitting := isSubmitting ui;
         value_category_id := value_category_id ui;
         value_amount := value_amount ui;
         value_period := value_period ui |}
  | Update _ _ | Insert _ | Delete _ | ToastSuccess _ | ToastError _
  | ConsoleError | RefreshData => ui
  end.

Definition run (ui : UI) (events : list Event) : UI :=
  fold_left apply events ui.

(** [getProgressColor] *)
Definition getProgressColor (percentage : float) (isOverBudget : bool)
  : string :=
  if isOverBudget then "from-red-500 to-red-600"
  else if gtb percentage 80 then "from-yellow-500 to-orange-500"
  else if gtb percentage 60 then "from-blue-500 to-purple-500"
  else "from-green-500 to-blue-500".

(** The events that are requests to the store. *)
Definition isWrite (e : Event) : bool :=
  match e with
  | Update _ _ | Insert _ | Delete _ => true
  | _ => false
  end.

End Budgets.

(* ================================================================== *)
(** ** pages/Dashboard.tsx: the dashboard aggregator *)
(* ================================================================== *)

Module Dashboard.
Import DateFns.

Record MonthlyStats : Type := {
  totalSpent : float;
  totalBudget : float;
  budgetRemaining : float;
  regretSpending : float;
  upcomingPayments : list RecurringPayment.t;
  expenseCount : nat
}.

Definition monthlyExpenses (zone : ES.TimeZone)
           (monthStart monthEnd : Date) (expenses : list Expense.t)
  : list Expense.t :=
  filter
    (fun expense =>
       isWithinInterval (newDate zone (Expense.date expense))
         {| start := monthStart; end_ := monthEnd |})
    expenses.

(** [monthlyStats]; [dateNow] is the reading of [Date.now()]. *)
Definition monthlyStats (zone : ES.TimeZone)
           (monthStart monthEnd : Date) (dateNow : Z)
           (expenses : list Expense.t)
           (budgets : list Budget.t)
           (recurringPayments : list RecurringPayment.t) : MonthlyStats :=
  let monthlyExpenses := monthlyExpenses zone monthStart monthEnd expenses in
  let totalSpent := reduce_sum Expense.amount monthlyExpenses in
  let totalBudget := reduce_sum Budget.amount budgets in
  let regretSpending :=
    reduce_sum Expense.amount (filter Expense.is_regret monthlyExpenses) in
  let upcomingPayments :=
    filter
      (fun payment =>
         DateProto.leb
           (newDate zone (RecurringPayment.next_due_date payment))
           (Some (dateNow + 7 * 24 * 60 * 60 * 1000)))
      recurringPayments in
  {| totalSpent := totalSpent;
     totalBudget := totalBudget;
     budgetRemaining := (totalBudget - totalSpent)%float;
     regretSpending := regretSpending;
     upcomingPayments := upcomingPayments;
     expenseCount := List.length monthlyExpenses |}.

Record View : Type := {
  stats : MonthlyStats;
  recentExpenses : list Expense.t;
  activeChallenges : list SavingsChallenge.t;
  unreadInsights : list Insight.t
}.

(** One render of the component: [now] is the reading of [new Date()] at
    the top of the render, [dateNow] the later reading of [Date.now()]
    inside [monthlyStats]. *)
Definition render (zone : ES.TimeZone) (now dateNow : Z)
           (expenses : list Expense.t) (budgets : list Budget.t)
           (recurringPayments : list RecurringPayment.t)
           (savingsChallenges : list SavingsChallenge.t)
           (insights : list Insight.t) : View :=
  let currentMonth : Date := Some now in
  let monthStart := startOfMonth zone currentMonth in
  let monthEnd := endOfMonth zone currentMonth in
  {| stats :=
       monthlyStats zone monthStart monthEnd dateNow expenses budgets
                    recurringPayments;
     recentExpenses := firstn 5 expenses;
     activeChallenges :=
       firstn 3
         (filter (fun challenge =>
                    negb (SavingsChallenge.is_completed challenge))
                 savingsChallenges);
     unreadInsights :=
       firstn 3
         (filter (fun insight => negb (Insight.is_read insight)) insights)
  |}.

(** The "Budget Remaining" card: the number shown,
    [Math.max(0, budgetRemaining)], and the line under it. *)
Definition budgetRemainingShown (s : MonthlyStats) : float :=
  Math.max 0 (budgetRemaining s).

Definition budgetRemainingChange (s : MonthlyStats) : string :=
  if (budgetRemaining s <? 0)%float then "Over budget!" else "On track".

(** The width of the bar of a savings challenge, in percent:
    [Math.min(100, (current_amount / target_amount) * 100)]. *)
Definition challengeWidth (challenge : SavingsChallenge.t) : float :=
  Math.min 100
    ((SavingsChallenge.current_amount challenge
      / SavingsChallenge.target_amount challenge) * 100)%float.



End Dashboard.

(* ================================================================== *)
(** ** contexts/DataContext.tsx: the data access facade *)
(* ================================================================== *)

Module DataContext.

(** What a query of the store resolves to: the rows, or [null] with an
    error. *)
Record PostgrestResponse (A : Type) : Type := {
  data : option (list A);
  error : option string
}.
Arguments data {A} _.
Arguments error {A} _.

Inductive Settled (A : Type) : Type :=
| Fulfilled (value : A)
| Rejected (reason : string).

(** The eight queries of a refresh, each settled. *)
Record Queries : Type := {
  categoriesQuery : Settled (PostgrestResponse Category.t);
  expensesQuery : Settled (PostgrestResponse Expense.t);
  budgetsQuery : Settled (PostgrestResponse Budget.t);
  recurringPaymentsQuery : Settled (PostgrestResponse RecurringPayment.t);
  debtsQuery : Settled (PostgrestResponse Debt.t);
  savingsChallengesQuery : Settled (PostgrestResponse SavingsChallenge.t);
  regretPurchasesQuery : Settled (PostgrestResponse RegretPurchase.t);
  insightsQuery : Settled (PostgrestResponse Insight.t)
}.

Record Results : Type := {
  categoriesResult : PostgrestResponse Category.t;
  expensesResult : PostgrestResponse Expense.t;
  budgetsResult : PostgrestResponse Budget.t;
  recurringPaymentsResult : PostgrestResponse RecurringPayment.t;
  debtsResult : PostgrestResponse Debt.t;
  savingsChallengesResult : PostgrestResponse SavingsChallenge.t;
  regretPurchasesResult : PostgrestResponse RegretPurchase.t;
  insightsResult : PostgrestResponse Insight.t
}.

(** [await Promise.all([...])]: the eight results, or the first
    rejection. *)
Definition Promise_all (q : Queries) : Settled Results :=
  match categoriesQuery q with
  | Rejected _ reason => Rejected _ reason
  | Fulfilled _ r0 =>
  match expensesQuery q with
  | Rejected _ reason => Rejected _ reason
  | Fulfilled _ r1 =>
  match budgetsQuery q with
  | Rejected _ reason => Rejected _ reason
  | Fulfilled _ r2 =>
  match recurringPaymentsQuery q with
  | Rejected _ reason => Rejected _ reason
  | Fulfilled _ r3 =>
  match debtsQuery q with
  | Rejected _ reason => Rejected _ reason
  | Fulfilled _ r4 =>
  match savingsChallengesQuery q with
  | Rejected _ reason => Rejected _ reason
  | Fulfilled _ r5 =>
  match regretPurchasesQuery q with
  | Rejected _ reason => Rejected _ reason
  | Fulfilled _ r6 =>
  match insightsQuery q with
  | Rejected _ reason => Rejected _ reason
  | Fulfilled _ r7 =>
      Fulfilled _
        {| categoriesResult := r0;
           expensesResult := r1;
           budgetsResult := r2;
           recurringPaymentsResult := r3;
           debtsResult := r4;
           savingsChallengesResult := r5;
           regretPurchasesResult := r6;
           insightsResult := r7 |}
  end end end end end end end end.

(** The remote store, as the refresh observes it: for a user id, how each
    of the eight queries settles. *)
Definition RemoteStore : Type := string -> Queries.

(** The in-memory snapshots held by the provider. *)
Record State : Type := {
  categories : list Category.t;
  expenses : list Expense.t;
  budgets : list Budget.t;
  recurringPayments : list RecurringPayment.t;
  debts : list Debt.t;
  savingsChallenges : list SavingsChallenge.t;
  regretPurchases : list RegretPurchase.t;
  insights : list Insight.t;
  loading : bool
}.

Definition initial : State :=
  {| categories := []; expenses := []; budgets := [];
     recurringPayments := []; debts := []; savingsChallenges := [];
     regretPurchases := []; insights := []; loading := false |}.

Definition setCategories (v : list Category.t) (s : State) : State :=
  {| categories := v;
     expenses := expenses s;
     budgets := budgets s;
     recurringPayments := recurringPayments s;
     debts := debts s;
     savingsChallenges := savingsChallenges s;
     regretPurchases := regretPurchases s;
     insights := insights s;
     loading := loading s |}.

Definition setExpenses (v : list Expense.t) (s : State) : State :=
  {| categories := categories s;
     expenses := v;
     budgets := budgets s;
     recurringPayments := recurringPayments s;
     debts := debts s;
     savingsChallenges := savingsChallenges s;
     regretPurchases := regretPurchases s;
     insights := insights s;
     loading := loading s |}.

Definition setBudgets (v : list Budget.t) (s : State) : State :=
  {| categories := categories s;
     expenses := expenses s;
     budgets := v;
     recurringPayments := recurringPayments s;
     debts := debts s;
     savingsChallenges := savingsChallenges s;
     regretPurchases := regretPurchases s;
     insights := insights s;
     loading := loading s |}.

Definition setRecurringPayments (v : list RecurringPayment.t) (s : State)
  : State :=
  {| categories := categories s;
     expenses := expenses s;
     budgets := budgets s;
     recurringPayments := v;
     debts := debts s;
     savingsChallenges := savingsChallenges s;
     regretPurchases := regretPurchases s;
     insights := insights s;
     loading := loading s |}.

Definition setDebts (v : list Debt.t) (s : State) : State :=
  {| categories := categories s;
     expenses := expenses s;
     budgets := budgets s;
     recurringPayments := recurringPayments s;
     debts := v;
     savingsChallenges := savingsChallenges s;
     regretPurchases := regretPurchases s;
     insights := insights s;
     loading := loading s |}.

Definition setSavingsChallenges (v : list SavingsChallenge.t) (s : State)
  : State :=
  {| categories := categories s;
     expenses := expenses s;
     budgets := budgets s;
     recurringPayments := recurringPayments s;
     debts := debts s;
     savingsChallenges := v;
     regretPurchases := regretPurchases s;
     insights := insights s;
     loading := loading s |}.

Definition setRegretPurchases (v : list RegretPurchase.t) (s : State) : State :=
  {| categories := categories s;
     expenses := expenses s;
     budgets := budgets s;
     recurringPayments := recurringPayments s;
     debts := debts s;
     savingsChallenges := savingsChallenges s;
     regretPurchases := v;
     insights := insights s;
     loading := loading s |}.

Definition setInsights (v : list Insight.t) (s : State) : State :=
  {| categories := categories s;
     expenses := expenses s;
     budgets := budgets s;
     recurringPayments := recurringPayments s;
     debts := debts s;
     savingsChallenges := savingsChallenges s;
     regretPurchases := regretPurchases s;
     insights := v;
     loading := loading s |}.

Definition setLoading (v : bool) (s : State) : State :=
  {| categories := categories s;
     expenses := expenses s;
     budgets := budgets s;
     recurringPayments := recurringPayments s;
     debts := debts s;
     savingsChallenges := savingsChallenges s;
     regretPurchases := regretPurchases s;
     insights := insights s;
     loading := v |}.

(** [refreshData]; the output of [console.error] is not part of the
    state. *)
Definition refreshData (store : RemoteStore) (user : option User.t)
           (s : State) : State :=
  match user with
  | None => s
  | Some user =>
      let s := setLoading true s in
      let s :=
        match Promise_all (store (User.id user)) with
        | Fulfilled _ r =>
        let s :=
          match data (categoriesResult r) with
          | Some d => setCategories d s
          | None => s
          end in
        let s :=
          match data (expensesResult r) with
          | Some d => setExpenses d s
          | None => s
          end in
        let s :=
          match data (budgetsResult r) with
          | Some d => setBudgets d s
          | None => s
          end in
        let s :=
          match data (recurringPaymentsResult r) with
          | Some d => setRecurringPayments d s
          | None => s
          end in
        let s :=
          match data (debtsResult r) with
          | Some d => setDebts d s
          | None => s
          end in
        let s :=
          match data (savingsChallengesResult r) with
          | Some d => setSavingsChallenges d s
          | None => s
          end in
        let s :=
          match data (regretPurchasesResult r) with
          | Some d => setRegretPurchases d s
          | None => s
          end in
        let s :=
          match data (insightsResult r) with
          | Some d => setInsights d s
          | None => s
          end in
        s
        | Rejected _ _ => s
        end in
      setLoading false s
  end.

(** The eight collections, to speak of any one of them. *)
Inductive Table : Type :=
| tbl_categories
| tbl_expenses
| tbl_budgets
| tbl_recurring_payments
| tbl_debts
| tbl_savings_challenges
| tbl_regret_purchases
| tbl_insights.

Definition Row (c : Table) : Type :=
  match c with
  | tbl_categories => Category.t
  | tbl_expenses => Expense.t
  | tbl_budgets => Budget.t
  | tbl_recurring_payments => RecurringPayment.t
  | tbl_debts => Debt.t
  | tbl_savings_challenges => SavingsChallenge.t
  | tbl_regret_purchases => RegretPurchase.t
  | tbl_insights => Insight.t
  end.

Definition snapshot (c : Table) : State -> list (Row c) :=
  match c with
  | tbl_categories => categories
  | tbl_expenses => expenses
  | tbl_budgets => budgets
  | tbl_recurring_payments => recurringPayments
  | tbl_debts => debts
  | tbl_savings_challenges => savingsChallenges
  | tbl_regret_purchases => regretPurchases
  | tbl_insights => insights
  end.

Definition query (c : Table)
  : Queries -> Settled (PostgrestResponse (Row c)) :=
  match c with
  | tbl_categories => categoriesQuery
  | tbl_expenses => expensesQuery
  | tbl_budgets => budgetsQuery
  | tbl_recurring_payments => recurringPaymentsQuery
  | tbl_debts => debtsQuery
  | tbl_savings_challenges => savingsChallengesQuery
  | tbl_regret_purchases => regretPurchasesQuery
  | tbl_insights => insightsQuery
  end.

Definition result (c : Table) : Results -> PostgrestResponse (Row c) :=
  match c with
  | tbl_categories => categoriesResult
  | tbl_expenses => expensesResult
  | tbl_budgets => budgetsResult
  | tbl_recurring_payments => recurringPaymentsResult
  | tbl_debts => debtsResult
  | tbl_savings_challenges => savingsChallengesResult
  | tbl_regret_purchases => regretPurchasesResult
  | tbl_insights => insightsResult
  end.

(** A fetch failed: its promise was rejected, or it resolved without
    rows. *)
Definition fetchFailed {A : Type} (q : Settled (PostgrestResponse A))
  : Prop :=
  match q with
  | Rejected _ _ => True
  | Fulfilled _ r => data r = None
  end.

End DataContext.

(* ================================================================== *)
(** ** pages/QuickExpense.tsx: submitting an expense *)
(* ================================================================== *)

Module QuickExpense.

(** A value that may be [undefined] or [null]. *)
Inductive nullable (A : Type) : Type :=
| undefined
| null
| value (a : A).
Arguments undefined {A}.
Arguments null {A}.
Arguments value {A} a.

(** An optional field of the form data is an [option]; [None] is
    [undefined]. *)
Record ExpenseFormData : Type := {
  amount : float;
  description : string;
  category_id : string;
  payment_method : string;
  date : string;
  location : option string;
  tags : list string;
  is_regret : bool;
  regret_reason : option string;
  regret_intensity : option float
}.

(** The [expenseData] object handed to [insert]. *)
Record ExpenseData : Type := {
  row_user_id : string;
  row_amount : float;
  row_description : string;
  row_category_id : nullable string;
  row_payment_method : string;
  row_date : string;
  row_location : nullable string;
  row_tags : list string;
  row_is_regret : bool;
  row_regret_reason : nullable string;
  row_regret_intensity : nullable float
}.

(** [s || null] *)
Definition or_null (s : option string) : nullable string :=
  match s with
  | Some x => if String.eqb x "" then null else value x
  | None => null
  end.

Definition of_optional {A : Type} (o : option A) : nullable A :=
  match o with
  | Some a => value a
  | None => undefined
  end.

(** What a submission does, in order. *)
Inductive Event : Type :=
| SetIsSubmitting (b : bool)
| Insert (rows : list ExpenseData)
| ToastSuccess (message : string)
| ToastError (message : string)
| ConsoleError
| ResetForm
| RefreshData.

(** [onSubmit]; [insert] is the error, if any, that the store answers an
    insertion with. *)
Definition onSubmit (zone : ES.TimeZone) (user : option User.t)
           (insert : list ExpenseData -> option string)
           (data : ExpenseFormData) : list Event :=
  match user with
  | None => []
  | Some user =>
      [SetIsSubmitting true]
      ++ match DateString.toISOString (newDate zone (date data)) with
         | None => [ConsoleError; ToastError "Invalid time value"]
         | Some iso =>
             let expenseData :=
               {| row_user_id := User.id user;
                  row_amount := amount data;
                  row_description := description data;
                  row_category_id := or_null (Some (category_id data));
                  row_payment_method := payment_method data;
                  row_date := iso;
                  row_location := or_null (location data);
                  row_tags := tags data;
                  row_is_regret := is_regret data;
                  row_regret_reason :=
                    if is_regret data
                    then of_optional (regret_reason data) else null;
                  row_regret_intensity :=
                    if is_regret data
                    then of_optional (regret_intensity data) else null |} in
             Insert [expenseData]
             :: match insert [expenseData] with
                | Some message => [ConsoleError; ToastError message]
                | None =>
                    [ToastSuccess "Expense added successfully!";
                     ResetForm; RefreshData]
                end
         end
      ++ [SetIsSubmitting false]
  end.

(** [s.split('T')[0]]: what stands before the first [T]. *)
Fixpoint beforeT (s : string) : string :=
  match s with
  | EmptyString => EmptyString
  | String c r =>
      if Ascii.eqb c "T" then EmptyString else String c (beforeT r)
  end.

(** The default values of the form when the clock reads [now]; [None] is
    the RangeError of [toISOString]. *)
Definition defaultValues (now : Z) : option ExpenseFormData :=
  match DateString.toISOString (Some now) with
  | None => None
  | Some iso =>
      Some {| amount := 0%float;
              description := ""%string;
              category_id := ""%string;
              payment_method := "cash"%string;
              date := beforeT iso;
              location := Some ""%string;
              tags := [];
              is_regret := false;
              regret_reason := Some ""%string;
              regret_intensity := Some 3%float |}
  end.

(** The events that are requests to the store. *)
Definition isInsert (e : Event) : bool :=
  match e with
  | Insert _ => true
  | _ => false
  end.

End QuickExpense.

(* ================================================================== *)
(** ** The specification's vocabulary *)
(* ================================================================== *)

(** The notions the specification is written in, stated independently of
    the code above: the sum over a selection, the first and the last
    instant of the current month, the month window between them, the week
    ahead. *)
Module Spec.
Import ES.

(** Sum of [f] over a list: the terms are added one after the other in the
    order of the list, starting from 0. *)
Fixpoint sum_from {A : Type} (acc : float) (f : A -> float) (l : list A)
  : float :=
  match l with
  | [] => acc
  | x :: r => sum_from (acc + f x)%float f r
  end.

Definition sigma {A : Type} (f : A -> float) (l : list A) : float :=
  sum_from 0%float f l.

(** Local 00:00:00.000 of the first day of the current month. *)
Definition monthStartInstant (zone : TimeZone) (now : Z) : Z :=
  let t := LocalTime zone now in
  UTC zone
    (MakeDate (MakeDay (YearFromTime t) (MonthFromTime t) 1)
              (MakeTime 0 0 0 0)).

(** Local 23:59:59.999 of the last day of the current month, the day
    before the first of the next month. *)
Definition monthEndInstant (zone : TimeZone) (now : Z) : Z :=
  let t := LocalTime zone now in
  UTC zone
    (MakeDate (MakeDay (YearFromTime t) (MonthFromTime t + 1) 1 - 1)
              (MakeTime 23 59 59 999)).

(** The instant [t] lies in the current month window, from its first
    instant to its last, both included. *)
Definition inCurrentMonthWindow (zone : TimeZone) (now t : Z) : bool :=
  (monthStartInstant zone now <=? t) && (t <=? monthEndInstant zone now).

(** [date(e) in currentMonthWindow] *)
Definition dateInCurrentMonth (zone : TimeZone) (now : Z) (e : Expense.t)
  : bool :=
  match newDate zone (Expense.date e) with
  | Some t => inCurrentMonthWindow zone now t
  | None => false
  end.

(** The instant [t] falls in the calendar month (of the host's local
    time) in which [now] falls. *)
Definition inCurrentMonth (zone : TimeZone) (now t : Z) : bool :=
  (YearFromTime (LocalTime zone t) =? YearFromTime (LocalTime zone now))
  && (MonthFromTime (LocalTime zone t) =? MonthFromTime (LocalTime zone now)).

(** [category(e) = category(B)] *)
Definition sameCategory (e : Expense.t) (B : Budget.t) : bool :=
  match Expense.category_id e with
  | Some c => String.eqb c (Budget.category_id B)
  | None => false
  end.

(** [spent(B,E)] *)
Definition spent (zone : TimeZone) (now : Z) (B : Budget.t)
           (E : list Expense.t) : float :=
  sigma Expense.amount
    (filter (fun e => sameCategory e B && dateInCurrentMonth zone now e) E).

(** [min(100, 100 * spent / amount)], the quotient taken as a
    percentage. *)
Definition percentage (spent amount : float) : float :=
  Math.min 100 (100 * (spent / amount))%float.

Definition days (n : Z) : Z := n * msPerDay.

(** Months counted from January of year 0: the day number of the first
    day of month [k], and the month in which day number [z] falls. *)
Definition firstOfMonth (k : Z) : Z := MakeDay 0 k 1.

Definition monthIndex (z : Z) : Z :=
  let '(y, m, _) := civil_from_days z in 12 * y + (m - 1).

(** The payment is due within the next seven days from [now], ends
    included. *)
Definition dueWithinNext7Days (zone : TimeZone) (now : Z)
           (p : RecurringPayment.t) : Prop :=
  exists t,
    newDate zone (RecurringPayment.next_due_date p) = Some t
    /\ now <= t <= now + days 7.

End Spec.

(* ================================================================== *)
(** ** Sample data *)
(* ================================================================== *)

(** A host in India on 15 August 2025, 20:02 local time, and a few rows of
    one user. *)
Module Example.
Local Open Scope string_scope.

Definition IST : ES.TimeZone := ES.fixedOffset 19800000.

(** New York in 2025: five hours behind UTC, four from 9 March, 2 a.m.
    (2025-03-09T07:00:00Z) to 2 November, 2 a.m. (2025-11-02T06:00:00Z).  A
    local time is read with the earlier offset where the two overlap or
    leave a gap. *)
Definition newYork : ES.TimeZone :=
  fun t isUTC =>
    let est := -5 * ES.msPerHour in
    let edt := -4 * ES.msPerHour in
    let spring := 1741503600000 in
    let autumn := 1762063200000 in
    if isUTC then
      if ((spring <=? t) && (t <? autumn))%Z then edt else est
    else
      if ((spring + edt <=? t) && (t <? autumn + edt))%Z then edt else est.

(** 2025-03-05T17:00:00Z, noon in New York, and ten days later, when the
    clocks have moved. *)
Definition marchNow : Z := 1741194000000.
Definition afterClockChange : Z := marchNow + 10 * 86400000.

(** 2025-08-15T14:32:31.123Z *)
Definition now : Z := 1755268351123.

Definition food : Category.t :=
  {| Category.id := "c-food"; Category.user_id := "u1";
     Category.name := "Food & Dining"; Category.icon := "";
     Category.color := "#F59E0B"; Category.is_default := true;
     Category.created_at := "2025-01-01T00:00:00+00:00" |}.

Definition expense (id : string) (cat : option string) (amount : float)
           (date : string) (is_regret : bool) : Expense.t :=
  {| Expense.id := id; Expense.user_id := "u1";
     Expense.category_id := cat; Expense.amount := amount;
     Expense.description := ""; Expense.date := date;
     Expense.payment_method := "cash"; Expense.receipt_url := None;
     Expense.location := None; Expense.tags := [];
     Expense.is_regret := is_regret;
     Expense.regret_reason := None; Expense.regret_intensity := None;
     Expense.created_at := date; Expense.category := None |}.

Definition budget (id : string) (cat : string) (amount : float)
           (period : Period) (start_date end_date : string) : Budget.t :=
  {| Budget.id := id; Budget.user_id := "u1"; Budget.category_id := cat;
     Budget.amount := amount; Budget.period := period;
     Budget.start_date := start_date; Budget.end_date := end_date;
     Budget.is_active := true;
     Budget.created_at := "2025-08-01T00:00:00+00:00";
     Budget.category := None |}.

Definition payment (id : string) (next_due_date : string)
  : RecurringPayment.t :=
  {| RecurringPayment.id := id; RecurringPayment.user_id := "u1";
     RecurringPayment.category_id := None;
     RecurringPayment.name := id; RecurringPayment.amount := 499%float;
     RecurringPayment.frequency := freq_monthly;
     RecurringPayment.next_due_date := next_due_date;
     RecurringPayment.is_active := true;
     RecurringPayment.auto_pay := false;
     RecurringPayment.provider := None;
     RecurringPayment.last_paid := None;
     RecurringPayment.created_at := "2025-01-01T00:00:00+00:00";
     RecurringPayment.category := None |}.

(** Local midnight opening August 2025, and the last millisecond of the
    month. *)
Definition atMonthStart : Expense.t :=
  expense "e-first" (Some "c-food") 120%float "2025-08-01T00:00:00+05:30" false.
Definition atMonthEnd : Expense.t :=
  expense "e-last" (Some "c-food") 80%float "2025-08-31T23:59:59.999+05:30"
          false.
Definition inJuly : Expense.t :=
  expense "e-july" (Some "c-food") 999%float "2025-07-31T23:59:59.999+05:30"
          false.
Definition lunch : Expense.t :=
  expense "e-lunch" (Some "c-food") 5000%float "2025-08-10T07:30:00+00:00"
          false.
Definition impulse : Expense.t :=
  expense "e-impulse" None 300%float "2025-08-12T18:00:00+00:00" true.
Definition groceries : Expense.t :=
  expense "e-groceries" (Some "c-food") 700%float "2025-08-03T09:15:00+00:00"
          false.

Definition foodWeekly : Budget.t :=
  budget "b-week" "c-food" 5000%float weekly
         "2025-08-11T00:00:00+00:00" "2025-08-17T23:59:59+00:00".
Definition foodYearly : Budget.t :=
  budget "b-year" "c-food" 60000%float yearly
         "2025-01-01T00:00:00+00:00" "2025-12-31T23:59:59+00:00".
Definition travel : Budget.t :=
  budget "b-travel" "c-travel" 1000%float monthly
         "2025-08-01T00:00:00+00:00" "2025-08-31T23:59:59+00:00".

(** Due a fortnight before [now], three days after and eight days
    after. *)
Definition overdue : RecurringPayment.t :=
  payment "rent" "2025-08-01T00:00:00+00:00".
Definition dueIn3 : RecurringPayment.t :=
  payment "power" "2025-08-18T14:32:31.123+00:00".
Definition dueIn8 : RecurringPayment.t :=
  payment "phone" "2025-08-23T14:32:31.123+00:00".

Definition augustFood : list Expense.t :=
  [atMonthStart; inJuly; lunch; atMonthEnd].

(** March 2025 in New York opens at 05:00 UTC on the 1st and, the clocks
    having moved on the 9th, closes just before 04:00 UTC on 1 April. *)
Definition marchFirst : Expense.t :=
  expense "e-march-first" (Some "c-food") 1%float
          "2025-03-01T05:00:00+00:00" false.
Definition marchLast : Expense.t :=
  expense "e-march-last" (Some "c-food") 2%float
          "2025-04-01T03:59:59.999+00:00" false.
Definition aprilFirst : Expense.t :=
  expense "e-april-first" (Some "c-food") 4%float
          "2025-04-01T04:00:00+00:00" false.
Definition februaryLast : Expense.t :=
  expense "e-february-last" (Some "c-food") 8%float
          "2025-03-01T04:59:59.999+00:00" false.

Definition marchFood : list Expense.t :=
  [februaryLast; marchFirst; marchLast; aprilFirst].

(** Amounts that are not binary fractions: a budget of 0.3 and expenses of
    0.1 and 0.2. *)
Definition snacks : Budget.t :=
  budget "b-snacks" "c-snacks" 0.3%float monthly
         "2025-08-01T00:00:00+00:00" "2025-08-31T23:59:59+00:00".
Definition tea : Expense.t :=
  expense "e-tea" (Some "c-snacks") 0.1%float "2025-08-05T10:00:00+00:00"
          false.
Definition biscuits : Expense.t :=
  expense "e-biscuits" (Some "c-snacks") 0.2%float
          "2025-08-06T10:00:00+00:00" false.

Definition user : User.t := {| User.id := "u1" |}.

(** A store that answers every query with rows, except the one on
    budgets, which it refuses. *)
Definition rows {A : Type} (l : list A)
  : DataContext.Settled (DataContext.PostgrestResponse A) :=
  DataContext.Fulfilled _
    {| DataContext.data := Some l; DataContext.error := None |}.

Definition refused {A : Type} (message : string)
  : DataContext.Settled (DataContext.PostgrestResponse A) :=
  DataContext.Fulfilled _
    {| DataContext.data := None; DataContext.error := Some message |}.

Definition store : DataContext.RemoteStore :=
  fun _ =>
    {| DataContext.categoriesQuery := rows [food];
       DataContext.expensesQuery := rows [lunch; groceries];
       DataContext.budgetsQuery :=
         refused "permission denied for table budgets";
       DataContext.recurringPaymentsQuery := rows [dueIn3];
       DataContext.debtsQuery := rows [];
       DataContext.savingsChallengesQuery := rows [];
       DataContext.regretPurchasesQuery := rows [];
       DataContext.insightsQuery := rows [] |}.

Definition before : DataContext.State :=
  {| DataContext.categories := [food];
     DataContext.expenses := [inJuly];
     DataContext.budgets := [foodWeekly; travel];
     DataContext.recurringPayments := [overdue];
     DataContext.debts := [];
     DataContext.savingsChallenges := [];
     DataContext.regretPurchases := [];
     DataContext.insights := [];
     DataContext.loading := false |}.

(** The form as it stands when the regret box was ticked, filled in and
    unticked again, with no category and no location chosen. *)
Definition form : QuickExpense.ExpenseFormData :=
  {| QuickExpense.amount := 250%float;
     QuickExpense.description := "tea";
     QuickExpense.category_id := "";
     QuickExpense.payment_method := "upi";
     QuickExpense.date := "2025-08-15";
     QuickExpense.location := Some "";
     QuickExpense.tags := [];
     QuickExpense.is_regret := false;
     QuickExpense.regret_reason := Some "bored";
     QuickExpense.regret_intensity := Some 4%float |}.

(** The month window on that day, and the one in New York. *)
Definition monthStart : Date := DateFns.startOfMonth IST (Some now).
Definition monthEnd : Date := DateFns.endOfMonth IST (Some now).
Definition marchStart : Date := DateFns.startOfMonth newYork (Some marchNow).
Definition marchEnd : Date := DateFns.endOfMonth newYork (Some marchNow).

(** What the dashboard lists as upcoming among the three payments. *)
Definition upcoming : list RecurringPayment.t :=
  Dashboard.upcomingPayments
    (Dashboard.stats
       (Dashboard.render IST now now [] [] [overdue; dueIn3; dueIn8] [] [])).

(** More rows: a budget of amount 0, an expense entered for 1 August and
    stored as that day's UTC midnight, the next day, a host five hours west of Greenwich. *)
Definition zeroBudget : Budget.t :=
  budget "b-zero" "c-food" 0%float monthly
         "2025-08-01T00:00:00+00:00" "2025-08-31T23:59:59+00:00".

Definition firstOfAugust : Expense.t :=
  expense "e-aug1" (Some "c-food") 50%float "2025-08-01T00:00:00.000Z"
          false.

Definition atNow : Expense.t :=
  expense "e-now" (Some "c-food") 75%float "2025-08-15T14:32:31.123Z" false.

Definition undated : Expense.t :=
  expense "e-undated" (Some "c-food") 10%float "yesterday" false.

Definition nextDay : Z := now + 86400000.

Definition nextMonth : Z := now + 30 * 86400000.

Definition EST : ES.TimeZone := ES.fixedOffset (-18000000).

Definition undatedPayment : RecurringPayment.t := payment "gym" "soon".

(** The budget form and two stores, one that accepts every write and one
    that refuses every write. *)
Definition budgetForm : Budgets.BudgetFormData :=
  {| Budgets.form_category_id := "c-food";
     Budgets.form_amount := 4000%float;
     Budgets.form_period := yearly |}.

Definition accepting : Budgets.Store :=
  {| Budgets.update := fun _ _ => None;
     Budgets.insert := fun _ => None;
     Budgets.delete := fun _ => None |}.

Definition refusing : Budgets.Store :=
  {| Budgets.update := fun _ _ => Some "row-level security";
     Budgets.insert := fun _ => Some "row-level security";
     Budgets.delete := fun _ => Some "row-level security" |}.

(** The page with the form open on the weekly food budget. *)
Definition editingUI : Budgets.UI :=
  Budgets.run Budgets.initialUI (Budgets.handleEdit foodWeekly).


Definition challenge (id : string) (target current : float) (done : bool)
  : SavingsChallenge.t :=
  {| SavingsChallenge.id := id; SavingsChallenge.user_id := "u1";
     SavingsChallenge.title := id; SavingsChallenge.description := None;
     SavingsChallenge.target_amount := target;
     SavingsChallenge.current_amount := current;
     SavingsChallenge.start_date := "2025-08-01T00:00:00+00:00";
     SavingsChallenge.end_date := "2025-12-31T00:00:00+00:00";
     SavingsChallenge.is_completed := done;
     SavingsChallenge.challenge_type := fixed_amount;
     SavingsChallenge.created_at := "2025-08-01T00:00:00+00:00" |}.

Definition reached : SavingsChallenge.t :=
  challenge "bike" 1000%float 1200%float false.
Definition finished : SavingsChallenge.t :=
  challenge "phone" 500%float 500%float true.

(** A store that answers every query with rows. *)
Definition fullStore : DataContext.RemoteStore :=
  fun _ =>
    {| DataContext.categoriesQuery := rows [food];
       DataContext.expensesQuery := rows [lunch; groceries];
       DataContext.budgetsQuery := rows [foodYearly];
       DataContext.recurringPaymentsQuery := rows [dueIn3];
       DataContext.debtsQuery := rows [];
       DataContext.savingsChallengesQuery := rows [reached];
       DataContext.regretPurchasesQuery := rows [];
       DataContext.insightsQuery := rows [] |}.

(** A store one of whose promises is rejected. *)
Definition brokenStore : DataContext.RemoteStore :=
  fun _ =>
    {| DataContext.categoriesQuery := rows [food];
       DataContext.expensesQuery := rows [lunch; groceries];
       DataContext.budgetsQuery := DataContext.Rejected _ "network";
       DataContext.recurringPaymentsQuery := rows [dueIn3];
       DataContext.debtsQuery := rows [];
       DataContext.savingsChallengesQuery := rows [];
       DataContext.regretPurchasesQuery := rows [];
       DataContext.insightsQuery := rows [] |}.

End Example.
(* ================================================================== *)
(** * Properties *)
(* ================================================================== *)

Ltac div_lia := Z.div_mod_to_equations; lia.

(* ------------------------------------------------------------------ *)
(** ** The calendar *)
(* ------------------------------------------------------------------ *)

Section Calendar.
Import ES Spec.

Lemma days_from_civil_succ_month (y m : Z) :
  1 <= m <= 11 ->
  days_from_civil y m 1 + 28 <= days_from_civil y (m + 1) 1.
Proof.
  intros Hm. unfold days_from_civil.
  destruct (Z.leb_spec m 2), (Z.leb_spec (m + 1) 2); div_lia.
Qed.

Lemma days_from_civil_succ_year (y : Z) :
  days_from_civil y 12 1 + 28 <= days_from_civil (y + 1) 1 1.
Proof.
  unfold days_from_civil.
  change (12 <=? 2) with false. change (1 <=? 2) with true.
  cbv iota. div_lia.
Qed.

Lemma days_from_civil_day (y m d : Z) :
  days_from_civil y m d = days_from_civil y m 1 + d - 1.
Proof. unfold days_from_civil. lia. Qed.

Lemma MakeDay_firstOfMonth (y m d : Z) :
  MakeDay y m d = firstOfMonth (12 * y + m) + d - 1.
Proof.
  unfold firstOfMonth, MakeDay.
  replace (0 + (12 * y + m) / 12) with (y + m / 12) by div_lia.
  replace ((12 * y + m) mod 12) with (m mod 12) by div_lia.
  lia.
Qed.

(** A month has at least 28 days. *)
Lemma firstOfMonth_month (k : Z) :
  firstOfMonth k + 28 <= firstOfMonth (k + 1).
Proof.
  unfold firstOfMonth, MakeDay.
  assert (Hk : 0 <= k mod 12 < 12) by (apply Z.mod_pos_bound; lia).
  destruct (Z.eq_dec (k mod 12) 11) as [E | E].
  - replace ((k + 1) mod 12) with 0 by div_lia.
    replace ((k + 1) / 12) with (k / 12 + 1) by div_lia.
    rewrite E.
    pose proof (days_from_civil_succ_year (0 + k / 12)) as H.
    change (11 + 1) with 12. change (0 + 1) with 1.
    replace (0 + (k / 12 + 1)) with (0 + k / 12 + 1) by lia. lia.
  - replace ((k + 1) mod 12) with (k mod 12 + 1) by div_lia.
    replace ((k + 1) / 12) with (k / 12) by div_lia.
    pose proof (days_from_civil_succ_month (0 + k / 12) (k mod 12 + 1)).
    lia.
Qed.

Lemma firstOfMonth_succ (k : Z) : firstOfMonth k < firstOfMonth (k + 1).
Proof. pose proof (firstOfMonth_month k). lia. Qed.

Lemma firstOfMonth_lt_nat (k : Z) (n : nat) :
  firstOfMonth k < firstOfMonth (k + 1 + Z.of_nat n).
Proof.
  induction n as [| n IH].
  - rewrite Z.add_0_r. apply firstOfMonth_succ.
  - replace (k + 1 + Z.of_nat (S n)) with (k + 1 + Z.of_nat n + 1) by lia.
    eapply Z.lt_trans; [exact IH | apply firstOfMonth_succ].
Qed.

Lemma firstOfMonth_lt (a b : Z) : a < b -> firstOfMonth a < firstOfMonth b.
Proof.
  intros H.
  replace b with (a + 1 + Z.of_nat (Z.to_nat (b - a - 1))) by lia.
  apply firstOfMonth_lt_nat.
Qed.

(** [civil_from_days] inverts [days_from_civil]. *)
Lemma civil_from_days_spec (z : Z) :
  let '(y, m, d) := civil_from_days z in
  1 <= m <= 12 /\ 1 <= d /\ days_from_civil y m d = z.
Proof.
  unfold civil_from_days, days_from_civil.
  set (z' := z + 719468).
  set (era := z' / 146097).
  set (doe := z' - era * 146097).
  set (yoe := (doe - doe / 1460 + doe / 36524 - doe / 146096) / 365).
  set (doy := doe - (365 * yoe + yoe / 4 - yoe / 100)).
  set (mp := (5 * doy + 2) / 153).
  assert (Hdoe : 0 <= doe <= 146096) by (subst doe era; div_lia).
  assert (Hyoe : 0 <= yoe <= 399) by (subst yoe; div_lia).
  assert (Hdoy : 0 <= doy <= 365) by (subst doy yoe; div_lia).
  assert (Hmp : 0 <= mp <= 11) by (subst mp; div_lia).
  assert (Hd : (153 * mp + 2) / 5 <= doy)
    by (subst mp; clearbody doy; div_lia).
  assert (Hz : z = era * 146097 + doe - 719468) by (subst doe z'; lia).
  assert (Hdoy' : doe = 365 * yoe + yoe / 4 - yoe / 100 + doy)
    by (subst doy; lia).
  clearbody mp doy yoe doe era. clear z'.
  destruct (Z.ltb_spec mp 10).
  - destruct (Z.leb_spec (mp + 3) 2); [lia |].
    split; [lia |]. split; [lia |].
    replace ((yoe + era * 400) / 400) with era by div_lia.
    replace (yoe + era * 400 - era * 400) with yoe by lia.
    replace (mp + 3 - 3) with mp by lia. lia.
  - destruct (Z.leb_spec (mp - 9) 2); [| lia].
    split; [lia |]. split; [lia |].
    replace (yoe + era * 400 + 1 - 1) with (yoe + era * 400) by lia.
    replace ((yoe + era * 400) / 400) with era by div_lia.
    replace (yoe + era * 400 - era * 400) with yoe by lia.
    replace (mp - 9 + 9) with mp by lia. lia.
Qed.

(** The day found lies before the first day of the following month. *)
Lemma civil_from_days_before_next_month (z : Z) :
  let '(y, m, d) := civil_from_days z in z < MakeDay y m 1.
Proof.
  unfold civil_from_days, MakeDay, days_from_civil.
  set (z' := z + 719468).
  set (era := z' / 146097).
  set (doe := z' - era * 146097).
  set (yoe := (doe - doe / 1460 + doe / 36524 - doe / 146096) / 365).
  set (doy := doe - (365 * yoe + yoe / 4 - yoe / 100)).
  set (mp := (5 * doy + 2) / 153).
  assert (Hdoe : 0 <= doe <= 146096) by (subst doe era; div_lia).
  assert (Hyoe : 0 <= yoe <= 399) by (subst yoe; div_lia).
  assert (Hdoy : 0 <= doy <= 365) by (subst doy yoe; div_lia).
  assert (Hmp : 0 <= mp <= 11) by (subst mp; div_lia).
  assert (Hz : z = era * 146097 + doe - 719468) by (subst doe z'; lia).
  assert (F1 : doy < (153 * (mp + 1) + 2) / 5)
    by (subst mp; clearbody doy; div_lia).
  assert (F2 : yoe < 399 ->
               doe < 365 * (yoe + 1) + (yoe + 1) / 4 - (yoe + 1) / 100)
    by (subst yoe; clearbody doe; div_lia).
  assert (Hdoy' : doe = 365 * yoe + yoe / 4 - yoe / 100 + doy)
    by (subst doy; lia).
  clearbody mp doy yoe doe era. clear z'.
  destruct (Z.ltb_spec mp 10).
  - destruct (Z.leb_spec (mp + 3) 2); [lia |].
    destruct (Z.eq_dec mp 9) as [E | E].
    + (* December: the next month is January of the following year *)
      replace ((mp + 3) / 12) with 1 by div_lia.
      replace ((mp + 3) mod 12 + 1) with 1 by div_lia.
      change (1 <=? 2) with true. cbv iota.
      replace (yoe + era * 400 + 1 - 1) with (yoe + era * 400) by lia.
      replace ((yoe + era * 400) / 400) with era by div_lia.
      replace (yoe + era * 400 - era * 400) with yoe by lia.
      replace (1 + 9) with (mp + 1) by lia. lia.
    + (* March to November *)
      replace ((mp + 3) / 12) with 0 by div_lia.
      replace ((mp + 3) mod 12 + 1) with (mp + 4) by div_lia.
      destruct (Z.leb_spec (mp + 4) 2); [lia |].
      replace (yoe + era * 400 + 0) with (yoe + era * 400) by lia.
      replace ((yoe + era * 400) / 400) with era by div_lia.
      replace (yoe + era * 400 - era * 400) with yoe by lia.
      replace (mp + 4 - 3) with (mp + 1) by lia. lia.
  - destruct (Z.leb_spec (mp - 9) 2); [| lia].
    replace ((mp - 9) / 12) with 0 by div_lia.
    replace ((mp - 9) mod 12 + 1) with (mp - 8) by div_lia.
    replace (yoe + era * 400 + 1 + 0) with (yoe + era * 400 + 1) by lia.
    destruct (Z.leb_spec (mp - 8) 2).
    + (* January *)
      replace (yoe + era * 400 + 1 - 1) with (yoe + era * 400) by lia.
      replace ((yoe + era * 400) / 400) with era by div_lia.
      replace (yoe + era * 400 - era * 400) with yoe by lia.
      replace (mp - 8 + 9) with (mp + 1) by lia. lia.
    + (* February: the next month opens the following March-based year *)
      assert (mp = 11) by lia. subst mp.
      change ((153 * (11 - 8 - 3) + 2) / 5) with 0.
      destruct (Z.eq_dec yoe 399) as [E | E].
      * subst yoe.
        replace ((399 + era * 400 + 1) / 400) with (era + 1) by div_lia.
        replace (399 + era * 400 + 1 - (era + 1) * 400) with 0 by lia.
        change (0 / 4) with 0. change (0 / 100) with 0. lia.
      * replace ((yoe + era * 400 + 1) / 400) with era by div_lia.
        replace (yoe + era * 400 + 1 - era * 400) with (yoe + 1) by lia.
        specialize (F2 ltac:(lia)). lia.
Qed.

Lemma monthIndex_bounds (z : Z) :
  firstOfMonth (monthIndex z) <= z < firstOfMonth (monthIndex z + 1).
Proof.
  unfold monthIndex.
  pose proof (civil_from_days_spec z) as Hs.
  pose proof (civil_from_days_before_next_month z) as Hn.
  destruct (civil_from_days z) as [[y m] d].
  destruct Hs as (Hm & Hd & Hz).
  rewrite MakeDay_firstOfMonth in Hn.
  rewrite days_from_civil_day in Hz.
  assert (E : days_from_civil y m 1 = firstOfMonth (12 * y + (m - 1))).
  { pose proof (MakeDay_firstOfMonth y (m - 1) 1) as H.
    unfold MakeDay in H at 1.
    replace ((m - 1) / 12) with 0 in H by div_lia.
    replace ((m - 1) mod 12 + 1) with m in H by div_lia.
    replace (y + 0) with y in H by lia. lia. }
  replace (12 * y + (m - 1) + 1) with (12 * y + m) by lia. lia.
Qed.

Lemma monthIndex_unique (z k : Z) :
  firstOfMonth k <= z < firstOfMonth (k + 1) <-> monthIndex z = k.
Proof.
  pose proof (monthIndex_bounds z) as Hb. split.
  - intros Hk.
    destruct (Z.lt_trichotomy (monthIndex z) k) as [Hlt | [Heq | Hgt]];
      [| exact Heq |].
    + assert (monthIndex z + 1 <= k) as Hle by lia.
      destruct (Z.eq_dec (monthIndex z + 1) k) as [E | E].
      * rewrite E in Hb. lia.
      * pose proof (firstOfMonth_lt (monthIndex z + 1) k ltac:(lia)). lia.
    + destruct (Z.eq_dec (k + 1) (monthIndex z)) as [E | E].
      * rewrite E in Hk. lia.
      * pose proof (firstOfMonth_lt (k + 1) (monthIndex z) ltac:(lia)). lia.
  - intros <-. exact Hb.
Qed.

Lemma monthIndex_year_month (t : Z) :
  monthIndex (Day t) = 12 * YearFromTime t + MonthFromTime t
  /\ 0 <= MonthFromTime t <= 11.
Proof.
  unfold monthIndex, YearFromTime, MonthFromTime.
  pose proof (civil_from_days_spec (Day t)) as Hs.
  destruct (civil_from_days (Day t)) as [[y m] d]. lia.
Qed.

Lemma Day_MakeDate (day time : Z) :
  0 <= time < msPerDay -> Day (MakeDate day time) = day.
Proof. unfold Day, MakeDate, msPerDay. intros H. div_lia. Qed.

Lemma TimeWithinDay_bounds (t : Z) : 0 <= TimeWithinDay t < msPerDay.
Proof. unfold TimeWithinDay, msPerDay. div_lia. Qed.

End Calendar.
(* ------------------------------------------------------------------ *)
(** ** Binary64 arithmetic *)
(* ------------------------------------------------------------------ *)

(** What the properties need of the arithmetic of doubles, derived from
    the specification of the format: the sign of a difference, the
    symmetry of a product and of [Math.min]. *)

Ltac hide_pow :=
  repeat match goal with
  | |- context [Z.pow ?b ?e] =>
      let x := fresh "pw" in set (x := Z.pow b e) in *; clearbody x
  | H : context [Z.pow ?b ?e] |- _ =>
      let x := fresh "pw" in set (x := Z.pow b e) in *; clearbody x
  end.

Section SpecFloatFacts.
Variables prec emax : Z.
Hypothesis prec_pos : 0 < prec.

Abbreviation emin := (SpecFloat.emin prec emax).
Abbreviation fexp := (SpecFloat.fexp prec emax).

Lemma digits2_pos_bounds (m : positive) :
  2 ^ (Zpos (digits2_pos m) - 1) <= Zpos m < 2 ^ Zpos (digits2_pos m).
Proof.
  induction m as [p IH | p IH |]; cbn [digits2_pos].
  - rewrite Pos2Z.inj_succ, (Pos2Z.inj_xI p).
    replace (Z.succ (Zpos (digits2_pos p)) - 1)
      with (Z.succ (Zpos (digits2_pos p) - 1)) by lia.
    rewrite !Z.pow_succ_r by lia. hide_pow. lia.
  - rewrite Pos2Z.inj_succ, (Pos2Z.inj_xO p).
    replace (Z.succ (Zpos (digits2_pos p)) - 1)
      with (Z.succ (Zpos (digits2_pos p) - 1)) by lia.
    rewrite !Z.pow_succ_r by lia. hide_pow. lia.
  - cbn. lia.
Qed.

Lemma iter_xO (m d : positive) :
  Zpos (Pos.iter xO m d) = Zpos m * 2 ^ Zpos d.
Proof.
  induction d as [| d IH] using Pos.peano_ind.
  - cbn [Pos.iter]. rewrite (Pos2Z.inj_xO m). lia.
  - rewrite Pos.iter_succ, (Pos2Z.inj_xO (Pos.iter xO m d)), IH,
      Pos2Z.inj_succ, Z.pow_succ_r by lia. lia.
Qed.

Lemma shl_align_value (mx : positive) (ex ez : Z) :
  ez <= ex ->
  Zpos (fst (shl_align mx ex ez)) = Zpos mx * 2 ^ (ex - ez).
Proof.
  intros H. unfold shl_align.
  destruct (ez - ex) as [| d | d] eqn:E; cbn [fst].
  - replace (ex - ez) with 0 by lia. lia.
  - lia.
  - rewrite iter_xO. replace (ex - ez) with (Zpos d) by lia. reflexivity.
Qed.

Lemma shr_m_shr_1 (r : shr_record) :
  0 <= shr_m r -> shr_m (shr_1 r) = shr_m r / 2.
Proof.
  destruct r as [m rb sb]. cbn [shr_m]. intros H.
  destruct m as [| [p | p |] | p]; cbn [shr_1 shr_m]; try lia.
  - reflexivity.
  - rewrite (Pos2Z.inj_xI p). div_lia.
  - rewrite (Pos2Z.inj_xO p). div_lia.
  - reflexivity.
Qed.

Lemma shr_m_iter_pos (p : positive) (r : shr_record) :
  0 <= shr_m r -> shr_m (SpecFloat.iter_pos shr_1 p r) = shr_m r / 2 ^ Zpos p.
Proof.
  revert r. induction p as [p IH | p IH |]; intros r Hr;
    cbn [SpecFloat.iter_pos].
  - assert (H1 : 0 <= shr_m (shr_1 r))
      by (rewrite shr_m_shr_1 by exact Hr; div_lia).
    assert (H2 : 0 <= shr_m (SpecFloat.iter_pos shr_1 p (shr_1 r)))
      by (rewrite IH by exact H1; apply Z.div_pos; lia).
    rewrite IH by exact H2. rewrite IH by exact H1.
    rewrite shr_m_shr_1 by exact Hr.
    rewrite !Z.div_div by lia.
    f_equal. rewrite (Pos2Z.inj_xI p).
    replace (2 * Zpos p + 1) with (1 + Zpos p + Zpos p) by lia.
    rewrite !Z.pow_add_r by lia. lia.
  - assert (H2 : 0 <= shr_m (SpecFloat.iter_pos shr_1 p r))
      by (rewrite IH by exact Hr; apply Z.div_pos; lia).
    rewrite IH by exact H2. rewrite IH by exact Hr.
    rewrite !Z.div_div by lia.
    f_equal. rewrite (Pos2Z.inj_xO p).
    replace (2 * Zpos p) with (Zpos p + Zpos p) by lia.
    rewrite !Z.pow_add_r by lia. lia.
  - rewrite shr_m_shr_1 by exact Hr. reflexivity.
Qed.

Lemma shr_m_of_loc (m : Z) (l : location) :
  shr_m (shr_record_of_loc m l) = m.
Proof. destruct l as [| []]; reflexivity. Qed.

(** Shifting a positive mantissa to the exponent of its format leaves it
    positive, as long as the exponent is at least [emin]. *)
Lemma shr_fexp_positive (m : positive) (e : Z) (l : location) :
  emin <= e ->
  (exists m', shr_m (fst (shr_fexp prec emax (Zpos m) e l)) = Zpos m')
  /\ emin <= snd (shr_fexp prec emax (Zpos m) e l).
Proof.
  intros He. unfold shr_fexp, shr. cbn [Zdigits2].
  pose proof (digits2_pos_bounds m) as Hd.
  set (d := Zpos (digits2_pos m)) in *.
  assert (Hd1 : 1 <= d) by (subst d; lia).
  unfold SpecFloat.fexp.
  destruct (Z.max (d + e - prec) emin - e) as [| n | n] eqn:En; cbn [fst snd].
  - split; [rewrite shr_m_of_loc; eauto | exact He].
  - split; [| lia].
    rewrite shr_m_iter_pos by (rewrite shr_m_of_loc; lia).
    rewrite shr_m_of_loc.
    assert (Hn : Zpos n <= d - 1) by lia.
    assert (Hp : 2 ^ Zpos n <= 2 ^ (d - 1))
      by (apply Z.pow_le_mono_r; lia).
    assert (Hq : 1 <= Zpos m / 2 ^ Zpos n).
    { apply Z.div_le_lower_bound; lia. }
    destruct (Zpos m / 2 ^ Zpos n) as [| q | q]; [lia | eauto | lia].
  - split; [rewrite shr_m_of_loc; eauto | exact He].
Qed.

Lemma round_nearest_even_positive (m : positive) (l : location) :
  exists m', round_nearest_even (Zpos m) l = Zpos m'.
Proof.
  unfold round_nearest_even.
  destruct l as [| []]; [eauto | | eauto |].
  - destruct (Z.even (Zpos m)); [eauto |]. exists (m + 1)%positive. reflexivity.
  - exists (m + 1)%positive. reflexivity.
Qed.

Lemma binary_round_aux_shape (s : bool) (m : positive) (e : Z)
      (l : location) :
  emin <= e ->
  binary_round_aux prec emax s (Zpos m) e l = S754_infinity s
  \/ exists m' e',
       binary_round_aux prec emax s (Zpos m) e l = S754_finite s m' e'.
Proof.
  intros He. unfold binary_round_aux.
  destruct (shr_fexp_positive m e l He) as [[m1 H1] He1].
  destruct (shr_fexp prec emax (Zpos m) e l) as [mrs' e'].
  cbn [fst snd] in H1, He1. rewrite H1.
  destruct (round_nearest_even_positive m1 (loc_of_shr_record mrs')) as [m2 H2].
  rewrite H2.
  destruct (shr_fexp_positive m2 e' loc_Exact He1) as [[m3 H3] _].
  destruct (shr_fexp prec emax (Zpos m2) e' loc_Exact) as [mrs'' e''].
  cbn [fst] in H3. rewrite H3.
  destruct (e'' <=? emax - prec); eauto.
Qed.

Lemma binary_round_shape (s : bool) (m : positive) (e : Z) :
  emin <= e ->
  binary_round prec emax s m e = S754_infinity s
  \/ exists m' e', binary_round prec emax s m e = S754_finite s m' e'.
Proof.
  intros He. unfold binary_round.
  destruct (shl_align m e (fexp (Zpos (digits2_pos m) + e))) as [mz ez] eqn:E.
  apply binary_round_aux_shape.
  unfold shl_align in E.
  destruct (fexp (Zpos (digits2_pos m) + e) - e) eqn:E';
    injection E as <- <-; try exact He.
  unfold SpecFloat.fexp. lia.
Qed.

(** A valid finite float: its exponent and the size of its mantissa. *)
Lemma bounded_canonical (m : positive) (e : Z) :
  bounded prec emax m e = true ->
  emin <= e
  /\ Zpos m < 2 ^ prec
  /\ (emin < e -> 2 ^ (prec - 1) <= Zpos m).
Proof.
  unfold bounded, canonical_mantissa, SpecFloat.fexp.
  intros H. apply andb_true_iff in H. destruct H as [H _].
  apply Z.eqb_eq in H.
  pose proof (digits2_pos_bounds m) as Hd.
  set (d := Zpos (digits2_pos m)) in *.
  assert (Hd1 : 1 <= d) by (subst d; lia).
  split; [lia |]. split.
  - assert (2 ^ d <= 2 ^ prec) by (apply Z.pow_le_mono_r; lia). lia.
  - intros Hlt. assert (d = prec) by lia. subst prec. lia.
Qed.


(** Two valid finite floats of the same sign compare as their mantissas
    brought to the smaller exponent. *)
Lemma aligned_compare (mx my : positive) (ex ey : Z) :
  bounded prec emax mx ex = true ->
  bounded prec emax my ey = true ->
  (Zpos (fst (shl_align mx ex (Z.min ex ey)))
   ?= Zpos (fst (shl_align my ey (Z.min ex ey))))
  = match ex ?= ey with
    | Lt => Lt
    | Gt => Gt
    | Eq => Pos.compare_cont Eq mx my
    end.
Proof.
  intros Hx Hy.
  destruct (bounded_canonical mx ex Hx) as (Hex & Hmx & Hnx).
  destruct (bounded_canonical my ey Hy) as (Hey & Hmy & Hny).
  rewrite !shl_align_value by lia.
  assert (Hhalf : 2 ^ prec = 2 * 2 ^ (prec - 1)).
  { replace prec with (Z.succ (prec - 1)) at 1 by lia.
    apply Z.pow_succ_r. lia. }
  destruct (Z.compare_spec ex ey) as [E | E | E].
  - subst ey. rewrite Z.min_id, Z.sub_diag. cbn [Z.pow].
    rewrite !Z.mul_1_r. reflexivity.
  - rewrite Z.min_l, Z.sub_diag by lia. cbn [Z.pow]. rewrite Z.mul_1_r.
    apply Z.compare_lt_iff.
    assert (H2 : 2 ^ 1 <= 2 ^ (ey - ex)) by (apply Z.pow_le_mono_r; lia).
    change (2 ^ 1) with 2 in H2.
    specialize (Hny ltac:(lia)). hide_pow. nia.
  - rewrite Z.min_r, Z.sub_diag by lia. cbn [Z.pow]. rewrite Z.mul_1_r.
    apply Z.compare_gt_iff.
    assert (H2 : 2 ^ 1 <= 2 ^ (ex - ey)) by (apply Z.pow_le_mono_r; lia).
    change (2 ^ 1) with 2 in H2.
    specialize (Hnx ltac:(lia)). hide_pow. nia.
Qed.

Lemma SFltb_zero (s : bool) (x : spec_float) :
  x = S754_infinity s \/ (exists m e, x = S754_finite s m e) ->
  SFltb x (S754_zero false) = s.
Proof. intros [-> | (m & e & ->)]; destruct s; reflexivity. Qed.

Lemma SFltb_zero_positive (m : Z) (e : Z) :
  0 <= m ->
  SFltb (binary_normalize prec emax m e false) (S754_zero false) = false.
Proof.
  intros H. destruct m as [| m | m]; [reflexivity | | lia].
  cbn [binary_normalize]. unfold binary_round.
  destruct (shl_align _ _ _) as [mz ez]. unfold binary_round_aux.
  destruct (shr_fexp _ _ _ _ _) as [mrs' e'].
  destruct (shr_fexp _ _ _ _ _) as [mrs'' e''].
  destruct (shr_m mrs''); [reflexivity | | reflexivity].
  destruct (_ <=? _); reflexivity.
Qed.

(** The difference of two floats is below zero exactly when the first is
    below the second. *)
Lemma SFsub_negative (x y : spec_float) :
  SpecFloat.valid_binary prec emax x = true ->
  SpecFloat.valid_binary prec emax y = true ->
  SFltb (SFsub prec emax x y) (S754_zero false) = SFltb x y.
Proof.
  intros Hx Hy.
  destruct x as [sx | sx | | sx mx ex], y as [sy | sy | | sy my ey];
    try reflexivity;
    try (destruct sx; reflexivity);
    try (destruct sy; reflexivity);
    try (destruct sx, sy; reflexivity).
  cbn [SpecFloat.valid_binary] in Hx, Hy.
  pose proof (aligned_compare mx my ex ey Hx Hy) as Hc.
  destruct (bounded_canonical mx ex Hx) as (Hex & _).
  destruct (bounded_canonical my ey Hy) as (Hey & _).
  cbn [SFsub]. unfold SFltb at 2. cbn [SFcompare].
  set (ez := Z.min ex ey) in *.
  assert (Hez : emin <= ez) by (subst ez; lia).
  set (ax := Zpos (fst (shl_align mx ex ez))) in *.
  set (ay := Zpos (fst (shl_align my ey ez))) in *.
  assert (Hax : 0 < ax) by (subst ax; lia).
  assert (Hay : 0 < ay) by (subst ay; lia).
  clearbody ax ay.
  assert (Hneg : forall z, z < 0 ->
            SFltb (binary_normalize prec emax z ez false) (S754_zero false)
            = true).
  { intros z Hz. destruct z as [| z | z]; [lia | lia |].
    cbn [binary_normalize]. apply SFltb_zero.
    destruct (binary_round_shape true z ez Hez) as [H | H]; [left | right];
      exact H. }
  destruct sx, sy; cbn [cond_Zopp].
  - (* both negative *)
    destruct (Z.compare_spec (- ax - - ay) 0) as [E | E | E].
    + rewrite E. cbn [binary_normalize].
      assert ((ax ?= ay) = Eq) as Ec by (apply Z.compare_eq_iff; lia).
      rewrite Ec in Hc. destruct (ex ?= ey); try discriminate Hc.
      rewrite <- Hc. reflexivity.
    + rewrite Hneg by exact E.
      assert ((ax ?= ay) = Gt) as Ec by (apply Z.compare_gt_iff; lia).
      rewrite Ec in Hc. destruct (ex ?= ey); try discriminate Hc;
        [rewrite <- Hc |]; reflexivity.
    + rewrite SFltb_zero_positive by lia.
      assert ((ax ?= ay) = Lt) as Ec by (apply Z.compare_lt_iff; lia).
      rewrite Ec in Hc. destruct (ex ?= ey); try discriminate Hc;
        [rewrite <- Hc |]; reflexivity.
  - rewrite Hneg by lia. reflexivity.
  - rewrite SFltb_zero_positive by lia. reflexivity.
  - (* both positive *)
    destruct (Z.compare_spec (ax - ay) 0) as [E | E | E].
    + rewrite E. cbn [binary_normalize].
      assert ((ax ?= ay) = Eq) as Ec by (apply Z.compare_eq_iff; lia).
      rewrite Ec in Hc. destruct (ex ?= ey); try discriminate Hc.
      rewrite <- Hc. reflexivity.
    + rewrite Hneg by exact E.
      assert ((ax ?= ay) = Lt) as Ec by (apply Z.compare_lt_iff; lia).
      rewrite Ec in Hc. destruct (ex ?= ey); try discriminate Hc;
        [rewrite <- Hc |]; reflexivity.
    + rewrite SFltb_zero_positive by lia.
      assert ((ax ?= ay) = Gt) as Ec by (apply Z.compare_gt_iff; lia).
      rewrite Ec in Hc. destruct (ex ?= ey); try discriminate Hc;
        [rewrite <- Hc |]; reflexivity.
Qed.

End SpecFloatFacts.

(** Comparison, whatever the format. *)
Lemma SFcompare_swap (x y : spec_float) :
  SFcompare y x = option_map CompOpp (SFcompare x y).
Proof.
  destruct x as [sx | sx | | sx mx ex], y as [sy | sy | | sy my ey];
    try reflexivity;
    try (destruct sx; reflexivity);
    try (destruct sy; reflexivity);
    try (destruct sx, sy; reflexivity).
  cbn [SFcompare option_map].
  change (PosDef.Pos.compare_cont Eq mx my) with (Zpos mx ?= Zpos my).
  change (PosDef.Pos.compare_cont Eq my mx) with (Zpos my ?= Zpos mx).
  rewrite (Z.compare_antisym ex ey), (Z.compare_antisym (Zpos mx) (Zpos my)).
  destruct sx, sy, (ex ?= ey), (Zpos mx ?= Zpos my); reflexivity.
Qed.

Lemma SFcompare_Eq (x y : spec_float) :
  SFcompare x y = Some Eq ->
  x = y \/ exists sx sy, x = S754_zero sx /\ y = S754_zero sy.
Proof.
  destruct x as [sx | sx | | sx mx ex], y as [sy | sy | | sy my ey];
    cbn [SFcompare]; intros H; try discriminate H;
    try (destruct sx; discriminate H); try (destruct sy; discriminate H).
  - right. eauto.
  - left. destruct sx, sy; try discriminate H; reflexivity.
  - left.
    change (PosDef.Pos.compare_cont Eq mx my) with (Zpos mx ?= Zpos my) in H.
    destruct sx, sy; try discriminate H;
      destruct (Z.compare_spec ex ey) as [-> | |]; try discriminate H;
      destruct (Z.compare_spec (Zpos mx) (Zpos my)) as [E | |];
      try discriminate H; injection E as ->; reflexivity.
Qed.

(** Multiplication does not depend on the order of its operands. *)
Lemma SFmul_comm (prec emax : Z) (x y : spec_float) :
  SFmul prec emax x y = SFmul prec emax y x.
Proof.
  destruct x as [sx | sx | | sx mx ex], y as [sy | sy | | sy my ey];
    cbn [SFmul]; try reflexivity; try (rewrite xorb_comm; reflexivity).
  change (PosDef.Pos.mul mx my) with (mx * my)%positive.
  change (PosDef.Pos.mul my mx) with (my * mx)%positive.
  rewrite xorb_comm, Pos.mul_comm, Z.add_comm. reflexivity.
Qed.

Section Binary64.
Local Open Scope float_scope.

Lemma float_sub_negative (x y : float) : (x - y <? 0) = (x <? y).
Proof.
  rewrite !FloatAxioms.ltb_spec, FloatAxioms.sub_spec.
  change (Prim2SF 0) with (S754_zero false).
  apply (SFsub_negative prec emax); [reflexivity | |]; apply Prim2SF_valid.
Qed.

Lemma float_mul_comm (x y : float) : x * y = y * x.
Proof.
  apply Prim2SF_inj. rewrite !FloatAxioms.mul_spec. apply SFmul_comm.
Qed.

Lemma float_ltb_asym (x y : float) : (x <? y) = true -> (y <? x) = false.
Proof.
  rewrite !FloatAxioms.ltb_spec. unfold SFltb.
  rewrite (SFcompare_swap (Prim2SF x)).
  destruct (SFcompare (Prim2SF x) (Prim2SF y)) as [[| |] |];
    try discriminate; reflexivity.
Qed.

Lemma float_ltb_irrefl (x : float) : (x <? x) = false.
Proof.
  destruct (x <? x) eqn:E; [| reflexivity].
  rewrite (float_ltb_asym x x E) in E. discriminate E.
Qed.

Lemma float_ltb_nan (x : float) : (x <? nan) = false.
Proof.
  rewrite FloatAxioms.ltb_spec. change (Prim2SF nan) with S754_nan.
  destruct (Prim2SF x); reflexivity.
Qed.

Lemma Math_min_comm (x y : float) : Math.min x y = Math.min y x.
Proof.
  unfold Math.min.
  rewrite !FloatAxioms.compare_spec, (SFcompare_swap (Prim2SF x) (Prim2SF y)).
  destruct (SFcompare (Prim2SF x) (Prim2SF y)) as [[| |] |] eqn:E;
    cbn [option_map CompOpp flatten_cmp_opt]; try reflexivity.
  destruct (SFcompare_Eq _ _ E) as [H | (sx & sy & Hx & Hy)].
  - apply Prim2SF_inj in H. subst y. destruct (get_sign x); reflexivity.
  - rewrite <- (SF2Prim_Prim2SF x), <- (SF2Prim_Prim2SF y), Hx, Hy.
    destruct sx, sy; reflexivity.
Qed.

(** [Math.min(x, y)] is never above [y]. *)
Lemma Math_min_le_r (x y : float) : (y <? Math.min x y) = false.
Proof.
  unfold Math.min. rewrite FloatAxioms.compare_spec.
  destruct (SFcompare (Prim2SF x) (Prim2SF y)) as [[| |] |] eqn:E;
    cbn [flatten_cmp_opt].
  - destruct (get_sign x); [| apply float_ltb_irrefl].
    rewrite FloatAxioms.ltb_spec. unfold SFltb.
    rewrite SFcompare_swap, E. reflexivity.
  - rewrite FloatAxioms.ltb_spec. unfold SFltb.
    rewrite SFcompare_swap, E. reflexivity.
  - apply float_ltb_irrefl.
  - apply float_ltb_nan.
Qed.

End Binary64.
(* ------------------------------------------------------------------ *)
(** ** Time zones *)
(* ------------------------------------------------------------------ *)

Section Zones.
Import ES.

Lemma fixedOffset_regular (tza : Z) :
  - msPerDay <= tza <= msPerDay -> regular (fixedOffset tza).
Proof.
  intros H. split.
  - intros t isUTC. exact H.
  - intros t. unfold LocalTime, UTC, fixedOffset. f_equal. lia.
Qed.

(** New York's clock moves by an hour at 2 a.m.: the day stays. *)
Lemma newYork_regular : regular Example.newYork.
Proof.
  split.
  - intros t isUTC. unfold Example.newYork, msPerDay, msPerHour.
    destruct isUTC;
      match goal with |- context [if ?c then _ else _] => destruct c end;
      lia.
  - intros t. unfold LocalTime, UTC, Example.newYork. cbv zeta.
    unfold Day, msPerDay, msPerHour.
    destruct ((1741503600000 + -4 * 3600000 <=? t)
              && (t <? 1762063200000 + -4 * 3600000)) eqn:E1;
      match goal with
      | |- context [if ?c then _ else _] => destruct c eqn:E2
      end;
      try (f_equal; lia);
      first [apply andb_true_iff in E1; destruct E1 as [E1 E1']
            | apply andb_false_iff in E1];
      first [apply andb_true_iff in E2; destruct E2 as [E2 E2']
            | apply andb_false_iff in E2];
      rewrite ?Z.leb_le, ?Z.ltb_lt, ?Z.leb_gt, ?Z.ltb_ge in *;
      div_lia.
Qed.

End Zones.

(* ------------------------------------------------------------------ *)
(** ** The month window *)
(* ------------------------------------------------------------------ *)

Section MonthWindow.
Import ES Spec DateProto DateFns.

Variable zone : TimeZone.
Variable now : Z.
Hypothesis Hzone : regular zone.

Let K : Z := monthIndex (Day (LocalTime zone now)).

(** The window the pages build runs from local midnight opening the first
    day of the month to the last millisecond of its last day. *)
Lemma startOfMonth_eq :
  startOfMonth zone (Some now) = Some (monthStartInstant zone now).
Proof.
  unfold startOfMonth, setDate, setHours, monthStartInstant.
  destruct Hzone as [_ Hday]. rewrite Hday.
  rewrite Day_MakeDate by apply TimeWithinDay_bounds. reflexivity.
Qed.

Lemma endOfMonth_eq :
  endOfMonth zone (Some now) = Some (monthEndInstant zone now).
Proof.
  unfold endOfMonth, getMonth, getFullYear, setFullYear, setHours,
    option_map, monthEndInstant.
  destruct Hzone as [_ Hday]. rewrite Hday.
  rewrite Day_MakeDate by apply TimeWithinDay_bounds.
  do 3 f_equal. unfold MakeDay. lia.
Qed.

Lemma monthStartInstant_eq :
  monthStartInstant zone now = UTC zone (firstOfMonth K * msPerDay).
Proof.
  unfold monthStartInstant. f_equal. unfold MakeDate, MakeTime.
  destruct (monthIndex_year_month (LocalTime zone now)) as [HK _].
  rewrite MakeDay_firstOfMonth, <- HK. fold K. lia.
Qed.

Lemma monthEndInstant_eq :
  monthEndInstant zone now = UTC zone (firstOfMonth (K + 1) * msPerDay - 1).
Proof.
  unfold monthEndInstant. f_equal. unfold MakeDate, MakeTime.
  destruct (monthIndex_year_month (LocalTime zone now)) as [HK _].
  rewrite MakeDay_firstOfMonth.
  replace (12 * YearFromTime (LocalTime zone now)
           + (MonthFromTime (LocalTime zone now) + 1)) with (K + 1)
    by (unfold K; lia).
  unfold msPerDay, msPerHour, msPerMinute, msPerSecond. lia.
Qed.

(** The window is never empty. *)
Lemma month_ends_ordered :
  monthStartInstant zone now <= monthEndInstant zone now.
Proof.
  rewrite monthStartInstant_eq, monthEndInstant_eq. unfold UTC.
  destruct Hzone as [Hoff _].
  pose proof (Hoff (firstOfMonth K * msPerDay) false) as H1.
  pose proof (Hoff (firstOfMonth (K + 1) * msPerDay - 1) false) as H2.
  pose proof (firstOfMonth_month K) as Hm.
  unfold msPerDay in *. lia.
Qed.

Lemma isWithinInterval_window (t : Z) :
  isWithinInterval (Some t)
    {| start := startOfMonth zone (Some now);
       end_ := endOfMonth zone (Some now) |}
  = inCurrentMonthWindow zone now t.
Proof.
  rewrite startOfMonth_eq, endOfMonth_eq.
  unfold isWithinInterval, getTime, sort2, geb, leb, inCurrentMonthWindow.
  cbn [start end_].
  pose proof month_ends_ordered as Hord.
  destruct (Z.ltb_spec (monthEndInstant zone now)
              (monthStartInstant zone now)); [lia | reflexivity].
Qed.

Lemma isWithinInterval_invalid (i : Interval) :
  isWithinInterval None i = false.
Proof.
  unfold isWithinInterval, getTime, geb, leb.
  destruct (sort2 _ _) as [[a |] [b |]]; reflexivity.
Qed.

End MonthWindow.

(** On a host with a fixed offset the window is the calendar month: an
    instant is within it exactly when it falls in the month of [now]. *)
Lemma window_is_calendar_month (tza now t : Z) :
  Spec.inCurrentMonthWindow (ES.fixedOffset tza) now t
  = Spec.inCurrentMonth (ES.fixedOffset tza) now t.
Proof.
  unfold Spec.inCurrentMonthWindow.
  rewrite monthStartInstant_eq, monthEndInstant_eq.
  set (zone := ES.fixedOffset tza).
  set (K := Spec.monthIndex (ES.Day (ES.LocalTime zone now))).
  pose proof (firstOfMonth_succ K) as Hlt.
  pose proof (monthIndex_unique (ES.Day (ES.LocalTime zone t)) K) as Hu.
  destruct (monthIndex_year_month (ES.LocalTime zone t)) as [Ht Hmt].
  destruct (monthIndex_year_month (ES.LocalTime zone now)) as [Hn Hmn].
  fold K in Hn.
  unfold Spec.inCurrentMonth.
  apply eq_true_iff_eq.
  rewrite !andb_true_iff, !Z.leb_le, !Z.eqb_eq.
  unfold zone, ES.UTC, ES.LocalTime, ES.fixedOffset in *.
  split.
  - intros [H1 H2].
    assert (Spec.monthIndex (ES.Day (t + tza)) = K) as E.
    { apply Hu. unfold ES.Day, ES.msPerDay in *. div_lia. }
    lia.
  - intros [H1 H2].
    assert (Spec.monthIndex (ES.Day (t + tza)) = K) as E by lia.
    apply Hu in E. unfold ES.Day, ES.msPerDay in *. div_lia.
Qed.

(* ------------------------------------------------------------------ *)
(** ** Sums and selections *)
(* ------------------------------------------------------------------ *)

Section Sums.
Context {A : Type} (f : A -> float).

Lemma fold_sum_from (l : list A) (a : float) :
  fold_left (fun sum x => (sum + f x)%float) l a = Spec.sum_from a f l.
Proof.
  revert a. induction l as [| x r IH]; intros a;
    cbn [fold_left Spec.sum_from]; [reflexivity | apply IH].
Qed.

Lemma reduce_sum_sigma (l : list A) : reduce_sum f l = Spec.sigma f l.
Proof. apply fold_sum_from. Qed.

Lemma filter_none (p : A -> bool) (l : list A) :
  (forall x, In x l -> p x = false) -> filter p l = [].
Proof.
  induction l as [| x r IH]; intros H; cbn [filter]; [reflexivity |].
  rewrite (H x (or_introl eq_refl)). apply IH.
  intros y Hy. apply H. right. exact Hy.
Qed.

Lemma in_filter (p : A -> bool) (x : A) (l : list A) :
  In x l -> p x = true -> In x (filter p l).
Proof. intros H1 H2. apply filter_In. split; assumption. Qed.

Lemma filter_filter_andb (p q : A -> bool) (l : list A) :
  filter q (filter p l) = filter (fun x => p x && q x) l.
Proof.
  induction l as [| x r IH]; cbn [filter]; [reflexivity |].
  destruct (p x); cbn [filter andb]; [destruct (q x) |]; now rewrite IH.
Qed.

End Sums.

(* ------------------------------------------------------------------ *)
(** ** Budget progress *)
(* ------------------------------------------------------------------ *)

Section BudgetProgress.
Import DateFns Budgets.

Variable zone : ES.TimeZone.
Variable now : Z.
Hypothesis Hzone : ES.regular zone.

Let monthStart : Date := startOfMonth zone (Some now).
Let monthEnd : Date := endOfMonth zone (Some now).

(** The date test of the pages is the test of the month window. *)
Lemma window_test (e : Expense.t) :
  isWithinInterval (newDate zone (Expense.date e))
    {| start := monthStart; end_ := monthEnd |}
  = Spec.dateInCurrentMonth zone now e.
Proof.
  unfold Spec.dateInCurrentMonth, monthStart, monthEnd.
  destruct (newDate zone (Expense.date e)) as [t |].
  - apply isWithinInterval_window. exact Hzone.
  - apply isWithinInterval_invalid.
Qed.

Lemma categoryExpenses_spec (E : list Expense.t) (B : Budget.t) :
  categoryExpenses zone monthStart monthEnd E B
  = filter (fun e => Spec.sameCategory e B
                     && Spec.dateInCurrentMonth zone now e) E.
Proof.
  unfold categoryExpenses. apply filter_ext. intros e.
  rewrite window_test. reflexivity.
Qed.

Lemma monthlyExpenses_spec (E : list Expense.t) :
  Dashboard.monthlyExpenses zone monthStart monthEnd E
  = filter (Spec.dateInCurrentMonth zone now) E.
Proof.
  unfold Dashboard.monthlyExpenses. apply filter_ext. intros e.
  apply window_test.
Qed.

Lemma spent_progressOf (E : list Expense.t) (B : Budget.t) :
  spent (progressOf zone monthStart monthEnd E B)
  = Spec.spent zone now B E.
Proof.
  unfold progressOf, Spec.spent. cbn [spent].
  rewrite reduce_sum_sigma, categoryExpenses_spec. reflexivity.
Qed.

End BudgetProgress.

Section BudgetProgressShape.
Import DateFns Budgets.

Variable zone : ES.TimeZone.
Variable now : Z.

Lemma budgetProgress_nth (budgets : list Budget.t) (E : list Expense.t)
      (i : nat) :
  nth_error (budgetProgress zone now budgets E) i
  = option_map
      (progressOf zone (startOfMonth zone (Some now))
                  (endOfMonth zone (Some now)) E)
      (nth_error budgets i).
Proof. unfold budgetProgress. apply nth_error_map. Qed.

Lemma progressOf_budgetOf (monthStart monthEnd : Date)
      (E : list Expense.t) (B : Budget.t) :
  budgetOf (progressOf zone monthStart monthEnd E B) = B.
Proof. destruct B. reflexivity. Qed.

End BudgetProgressShape.

Section BudgetClaims.
Import DateFns Budgets.

Variable zone : ES.TimeZone.
Variable now : Z.
Variable budgets : list Budget.t.
Variable expenses : list Expense.t.

(** C1. The [spent] of each budget is the sum of the amounts of exactly
    the expenses of the budget's category dated in the current month
    window, and two budgets on one category get the same [spent] whatever
    their period, start date and end date are. *)
Theorem budget_spent_is_category_month_sum :
  ES.regular zone ->
  (forall i B,
      nth_error budgets i = Some B ->
      exists p,
        nth_error (budgetProgress zone now budgets expenses) i = Some p
        /\ spent p = Spec.spent zone now B expenses)
  /\ (forall i j B B' p p',
         nth_error budgets i = Some B ->
         nth_error budgets j = Some B' ->
         Budget.category_id B = Budget.category_id B' ->
         nth_error (budgetProgress zone now budgets expenses) i = Some p ->
         nth_error (budgetProgress zone now budgets expenses) j = Some p' ->
         spent p = spent p').
Proof.
  intros Hzone. split.
  - intros i B HB. rewrite budgetProgress_nth, HB. cbn [option_map].
    eexists. split; [reflexivity |]. apply spent_progressOf. exact Hzone.
  - intros i j B B' p p' HB HB' Hc.
    rewrite !budgetProgress_nth, HB, HB'. cbn [option_map].
    intros [= <-] [= <-].
    unfold progressOf, categoryExpenses. cbn [spent].
    rewrite Hc. reflexivity.
Qed.

(** C2. The displayed percentage of a budget is
    [min(100, 100 * spent(B,E) / amount(B))], so it is never above 100, and
    [isOverBudget] holds exactly when [spent(B,E) > amount(B)], whatever
    the clamp did: spent 5200 against 5000 gives [isOverBudget = true] and
    [percentage = 100]. *)
Theorem budget_percentage_clamped_over_budget_unclamped :
  ES.regular zone ->
  forall i B,
    nth_error budgets i = Some B ->
    exists p,
      nth_error (budgetProgress zone now budgets expenses) i = Some p
      /\ percentage p
         = Spec.percentage (Spec.spent zone now B expenses) (Budget.amount B)
      /\ (100 <? percentage p)%float = false
      /\ isOverBudget p
         = (Budget.amount B <? Spec.spent zone now B expenses)%float
      /\ (Spec.spent zone now B expenses = 5200%float ->
          Budget.amount B = 5000%float ->
          isOverBudget p = true /\ percentage p = 100%float).
Proof.
  intros Hzone i B HB. rewrite budgetProgress_nth, HB. cbn [option_map].
  eexists. split; [reflexivity |].
  pose proof (spent_progressOf zone now Hzone expenses B) as Hs.
  unfold progressOf in *. cbn [spent percentage isOverBudget] in *.
  rewrite Hs. clear Hs.
  set (s := Spec.spent zone now B expenses).
  split; [| split; [| split]].
  - unfold Spec.percentage. rewrite Math_min_comm, float_mul_comm.
    reflexivity.
  - apply Math_min_le_r.
  - reflexivity.
  - intros -> ->. split; reflexivity.
Qed.

(** C3. [remaining] is [amount(B) - spent(B,E)], signed and not clamped:
    it is negative exactly when [spent(B,E)] exceeds the amount; a budget
    of 1000 with no matching expense has spent 0, remaining 1000,
    percentage 0 and is not over budget. *)
Theorem budget_remaining_signed :
  ES.regular zone ->
  forall i B,
    nth_error budgets i = Some B ->
    exists p,
      nth_error (budgetProgress zone now budgets expenses) i = Some p
      /\ remaining p
         = (Budget.amount B - Spec.spent zone now B expenses)%float
      /\ (remaining p <? 0)%float
         = (Budget.amount B <? Spec.spent zone now B expenses)%float
      /\ (Budget.amount B = 1000%float ->
          (forall e, In e expenses ->
                     Spec.sameCategory e B
                     && Spec.dateInCurrentMonth zone now e = false) ->
          spent p = 0%float
          /\ remaining p = 1000%float
          /\ percentage p = 0%float
          /\ isOverBudget p = false).
Proof.
  intros Hzone i B HB. rewrite budgetProgress_nth, HB. cbn [option_map].
  eexists. split; [reflexivity |].
  pose proof (spent_progressOf zone now Hzone expenses B) as Hs.
  unfold progressOf in *. cbn [spent remaining percentage isOverBudget] in *.
  rewrite Hs. clear Hs.
  split; [reflexivity |]. split; [apply float_sub_negative |].
  intros Ha Hnone. unfold Spec.spent.
  rewrite (filter_none _ _ Hnone), Ha.
  repeat split; reflexivity.
Qed.

(** C9. The calculator returns one record per budget, in the order of the
    input, and each record carries the fields of its budget unchanged. *)
Theorem budget_progress_preserves_budgets :
  List.length (budgetProgress zone now budgets expenses)
  = List.length budgets
  /\ map budgetOf (budgetProgress zone now budgets expenses) = budgets.
Proof.
  split; [apply length_map |].
  unfold budgetProgress. rewrite map_map.
  rewrite <- (map_id budgets) at 2. apply map_ext.
  intros B. apply progressOf_budgetOf.
Qed.

End BudgetClaims.

(* ------------------------------------------------------------------ *)
(** ** The dashboard *)
(* ------------------------------------------------------------------ *)

Section DashboardLemmas.
Import DateFns DateProto Dashboard.

Variable zone : ES.TimeZone.
Variables now dateNow : Z.
Variable expenses : list Expense.t.
Variable budgets : list Budget.t.
Variable recurringPayments : list RecurringPayment.t.
Variable savingsChallenges : list SavingsChallenge.t.
Variable insights : list Insight.t.

Let view : View :=
  render zone now dateNow expenses budgets recurringPayments
         savingsChallenges insights.

(** [upcomingPayments] holds the payments whose due date is a valid date
    no later than seven days after the reading of the clock. *)
Lemma upcomingPayments_spec (p : RecurringPayment.t) :
  In p (upcomingPayments (stats view))
  <-> In p recurringPayments
      /\ exists t,
           newDate zone (RecurringPayment.next_due_date p) = Some t
           /\ t <= dateNow + Spec.days 7.
Proof.
  unfold view, render, monthlyStats.
  cbn [stats upcomingPayments]. rewrite filter_In.
  unfold leb, Spec.days, ES.msPerDay.
  destruct (newDate zone (RecurringPayment.next_due_date p)) as [t |].
  - rewrite Z.leb_le. split.
    + intros [Hp Ht]. split; [exact Hp |]. exists t.
      split; [reflexivity | lia].
    + intros [Hp (t' & [= <-] & Ht)]. split; [exact Hp | lia].
  - split.
    + intros [_ H]. discriminate H.
    + intros [_ (t' & H & _)]. discriminate H.
Qed.

Lemma regretSpending_sigma :
  ES.regular zone ->
  regretSpending (stats view)
  = Spec.sigma Expense.amount
      (filter (fun e => Spec.dateInCurrentMonth zone now e
                        && Expense.is_regret e) expenses).
Proof.
  intros Hzone. unfold view, render, monthlyStats.
  cbn [stats regretSpending].
  rewrite reduce_sum_sigma, (monthlyExpenses_spec zone now Hzone),
    filter_filter_andb.
  reflexivity.
Qed.

Lemma totalSpent_sigma :
  ES.regular zone ->
  totalSpent (stats view)
  = Spec.sigma Expense.amount
      (filter (Spec.dateInCurrentMonth zone now) expenses).
Proof.
  intros Hzone. unfold view, render, monthlyStats. cbn [stats totalSpent].
  rewrite reduce_sum_sigma, (monthlyExpenses_spec zone now Hzone).
  reflexivity.
Qed.

End DashboardLemmas.

Section DashboardClaims.
Import DateFns DateProto Dashboard.

Variable zone : ES.TimeZone.
Variables now dateNow : Z.
Variable expenses : list Expense.t.
Variable budgets : list Budget.t.
Variable recurringPayments : list RecurringPayment.t.
Variable savingsChallenges : list SavingsChallenge.t.
Variable insights : list Insight.t.

Let view : View :=
  render zone now dateNow expenses budgets recurringPayments
         savingsChallenges insights.

(** C6. [regretSpending] is the sum of the amounts of the expenses of the
    current month window that are flagged as regrets, [totalSpent] the sum
    over all expenses of the window; when the window holds a regret of 300
    and another expense of 700, they are 300 and 1000. *)
Theorem dashboard_regret_and_total_spending :
  ES.regular zone ->
  regretSpending (stats view)
  = Spec.sigma Expense.amount
      (filter (fun e => Spec.dateInCurrentMonth zone now e
                        && Expense.is_regret e) expenses)
  /\ totalSpent (stats view)
     = Spec.sigma Expense.amount
         (filter (Spec.dateInCurrentMonth zone now) expenses)
  /\ (forall e1 e2,
         filter (Spec.dateInCurrentMonth zone now) expenses = [e1; e2]
         \/ filter (Spec.dateInCurrentMonth zone now) expenses = [e2; e1] ->
         Expense.is_regret e1 = true ->
         Expense.is_regret e2 = false ->
         Expense.amount e1 = 300%float ->
         Expense.amount e2 = 700%float ->
         regretSpending (stats view) = 300%float
         /\ totalSpent (stats view) = 1000%float).
Proof.
  intros Hzone.
  pose proof (regretSpending_sigma zone now dateNow expenses budgets
                recurringPayments savingsChallenges insights Hzone) as Hr.
  pose proof (totalSpent_sigma zone now dateNow expenses budgets
                recurringPayments savingsChallenges insights Hzone) as Ht.
  fold view in Hr, Ht.
  split; [exact Hr |]. split; [exact Ht |].
  intros e1 e2 HE R1 R2 A1 A2. rewrite Hr, Ht.
  rewrite <- (filter_filter_andb (Spec.dateInCurrentMonth zone now)
                Expense.is_regret).
  destruct HE as [-> | ->]; cbn [filter]; rewrite R1, R2;
    unfold Spec.sigma; cbn [Spec.sum_from]; rewrite A1, A2;
    split; reflexivity.
Qed.

End DashboardClaims.

(* ------------------------------------------------------------------ *)
(** ** The ends of the month window *)
(* ------------------------------------------------------------------ *)

Section WindowEnds.
Import DateFns DateProto.

Variable zone : ES.TimeZone.
Variable now : Z.
Variable expenses : list Expense.t.

Let monthStart : Date := startOfMonth zone (Some now).
Let monthEnd : Date := endOfMonth zone (Some now).

(** C5. The month window has both ends in it: an expense dated at local
    00:00:00.000 of the first day of the current month, or at local
    23:59:59.999 of its last day, is among the expenses of the month on the
    dashboard and among the expenses of any budget of its category; one
    millisecond outside either end it is not. *)
Theorem month_window_includes_both_ends :
  ES.regular zone ->
  forall e,
    In e expenses ->
    (newDate zone (Expense.date e) = Some (Spec.monthStartInstant zone now)
     \/ newDate zone (Expense.date e) = Some (Spec.monthEndInstant zone now)
     -> In e (Dashboard.monthlyExpenses zone monthStart monthEnd expenses)
        /\ forall B,
             Spec.sameCategory e B = true ->
             In e (Budgets.categoryExpenses zone monthStart monthEnd
                     expenses B))
    /\ (newDate zone (Expense.date e)
        = Some (Spec.monthStartInstant zone now - 1)
        \/ newDate zone (Expense.date e)
           = Some (Spec.monthEndInstant zone now + 1)
        -> ~ In e (Dashboard.monthlyExpenses zone monthStart monthEnd
                     expenses)
           /\ forall B,
                ~ In e (Budgets.categoryExpenses zone monthStart monthEnd
                          expenses B)).
Proof.
  intros Hzone e He.
  pose proof (month_ends_ordered zone now Hzone) as Hord.
  unfold monthStart, monthEnd.
  rewrite (monthlyExpenses_spec zone now Hzone).
  split.
  - intros Hd.
    assert (Hin : Spec.dateInCurrentMonth zone now e = true).
    { unfold Spec.dateInCurrentMonth, Spec.inCurrentMonthWindow.
      destruct Hd as [-> | ->]; apply andb_true_iff; rewrite !Z.leb_le;
        lia. }
    split.
    + apply filter_In. split; [exact He | exact Hin].
    + intros B HB. rewrite (categoryExpenses_spec zone now Hzone).
      apply filter_In. split; [exact He |]. rewrite HB, Hin. reflexivity.
  - intros Hd.
    assert (Hout : Spec.dateInCurrentMonth zone now e = false).
    { unfold Spec.dateInCurrentMonth, Spec.inCurrentMonthWindow.
      destruct Hd as [-> | ->]; apply andb_false_iff; rewrite !Z.leb_gt;
        lia. }
    split.
    + rewrite filter_In, Hout. intros [_ H]. discriminate H.
    + intros B. rewrite (categoryExpenses_spec zone now Hzone).
      rewrite filter_In, Hout, andb_false_r. intros [_ H]. discriminate H.
Qed.

End WindowEnds.

(* ------------------------------------------------------------------ *)
(** ** Refreshing the snapshots *)
(* ------------------------------------------------------------------ *)

Section Refresh.
Import DataContext.

Lemma Promise_all_fulfilled (q : Queries) (r : Results) :
  Promise_all q = Fulfilled _ r ->
  forall c, query c q = Fulfilled _ (result c r).
Proof.
  unfold Promise_all. intros H c.
  destruct (categoriesQuery q) eqn:E0; [| discriminate H].
  destruct (expensesQuery q) eqn:E1; [| discriminate H].
  destruct (budgetsQuery q) eqn:E2; [| discriminate H].
  destruct (recurringPaymentsQuery q) eqn:E3; [| discriminate H].
  destruct (debtsQuery q) eqn:E4; [| discriminate H].
  destruct (savingsChallengesQuery q) eqn:E5; [| discriminate H].
  destruct (regretPurchasesQuery q) eqn:E6; [| discriminate H].
  destruct (insightsQuery q) eqn:E7; [| discriminate H].
  injection H as <-. destruct c; cbn; assumption.
Qed.

Lemma Promise_all_rejected (q : Queries) (reason : string) :
  Promise_all q = Rejected _ reason ->
  exists c, query c q = Rejected _ reason.
Proof.
  unfold Promise_all. intros H.
  destruct (categoriesQuery q) eqn:E0;
    [| exists tbl_categories; cbn; congruence].
  destruct (expensesQuery q) eqn:E1;
    [| exists tbl_expenses; cbn; congruence].
  destruct (budgetsQuery q) eqn:E2;
    [| exists tbl_budgets; cbn; congruence].
  destruct (recurringPaymentsQuery q) eqn:E3;
    [| exists tbl_recurring_payments; cbn; congruence].
  destruct (debtsQuery q) eqn:E4;
    [| exists tbl_debts; cbn; congruence].
  destruct (savingsChallengesQuery q) eqn:E5;
    [| exists tbl_savings_challenges; cbn; congruence].
  destruct (regretPurchasesQuery q) eqn:E6;
    [| exists tbl_regret_purchases; cbn; congruence].
  destruct (insightsQuery q) eqn:E7;
    [discriminate H | exists tbl_insights; cbn; congruence].
Qed.

Ltac split_results r :=
  destruct (data (categoriesResult r)), (data (expensesResult r)),
    (data (budgetsResult r)), (data (recurringPaymentsResult r)),
    (data (debtsResult r)), (data (savingsChallengesResult r)),
    (data (regretPurchasesResult r)), (data (insightsResult r)).

(** After a refresh whose eight queries resolved, a snapshot is the rows
    fetched, or what it was when no rows came. *)
Lemma refreshData_snapshot (store : RemoteStore) (user : User.t)
      (s : State) (r : Results) (c : Table) :
  Promise_all (store (User.id user)) = Fulfilled _ r ->
  snapshot c (refreshData store (Some user) s)
  = match data (result c r) with
    | Some rows => rows
    | None => snapshot c s
    end.
Proof.
  intros H. unfold refreshData. rewrite H.
  destruct c; cbn [snapshot result Row]; split_results r; reflexivity.
Qed.

Lemma refreshData_rejected (store : RemoteStore) (user : User.t)
      (s : State) (reason : string) (c : Table) :
  Promise_all (store (User.id user)) = Rejected _ reason ->
  snapshot c (refreshData store (Some user) s) = snapshot c s.
Proof.
  intros H. unfold refreshData. rewrite H. destruct c; reflexivity.
Qed.

(** C7. When the fetch of a collection fails, the refresh leaves the
    snapshot of that collection as it was; and when the eight queries
    resolve, every collection whose rows came back has them as its new
    snapshot, whichever other fetches failed. *)
Theorem refresh_keeps_snapshot_of_failed_fetch :
  forall (store : RemoteStore) (user : User.t) (s : State),
    (forall c,
        fetchFailed (query c (store (User.id user))) ->
        snapshot c (refreshData store (Some user) s) = snapshot c s)
    /\ (forall r c rows,
           Promise_all (store (User.id user)) = Fulfilled _ r ->
           data (result c r) = Some rows ->
           snapshot c (refreshData store (Some user) s) = rows).
Proof.
  intros store user s. split.
  - intros c Hf.
    destruct (Promise_all (store (User.id user))) as [r | reason] eqn:E.
    + rewrite (refreshData_snapshot _ _ _ _ c E).
      rewrite (Promise_all_fulfilled _ _ E c) in Hf. cbn in Hf.
      rewrite Hf. reflexivity.
    + apply (refreshData_rejected _ _ _ _ c E).
  - intros r c rows E Hd.
    rewrite (refreshData_snapshot _ _ _ _ c E), Hd. reflexivity.
Qed.

(** C8. With the remote store unchanged, a second refresh leaves the
    state, and with it every snapshot, as the first one left it. *)
Theorem refresh_idempotent :
  forall (store : RemoteStore) (user : option User.t) (s : State),
    refreshData store user (refreshData store user s)
    = refreshData store user s.
Proof.
  intros store [user |] s; [| reflexivity].
  unfold refreshData.
  destruct (Promise_all (store (User.id user))) as [r | reason];
    [| reflexivity].
  split_results r; reflexivity.
Qed.

End Refresh.

(* ------------------------------------------------------------------ *)
(** ** Submitting an expense *)
(* ------------------------------------------------------------------ *)

Section QuickExpenseClaims.
Import QuickExpense.

Lemma or_null_not_empty (s : option string) :
  or_null s <> value EmptyString.
Proof.
  unfold or_null. destruct s as [x |]; [| discriminate].
  destruct (String.eqb_spec x EmptyString) as [-> | Hx]; [discriminate |].
  intros [= ->]. apply Hx. reflexivity.
Qed.

(** C10. Every record the form hands to the store keeps the regret flag
    of the form and, when the flag is off, has [null] for both the regret
    reason and the regret intensity; an empty category or location of the
    form is [null] in the record, which never holds an empty string
    there.  A signed-in user with a valid date does submit one record. *)
Theorem submitted_expense_has_no_regret_data_without_flag :
  forall (zone : ES.TimeZone) (user : option User.t)
         (insert : list ExpenseData -> option string)
         (data : ExpenseFormData),
    (forall rows,
        In (Insert rows) (onSubmit zone user insert data) ->
        Forall
          (fun r =>
             row_is_regret r = is_regret data
             /\ (row_is_regret r = false ->
                 row_regret_reason r = null
                 /\ row_regret_intensity r = null)
             /\ (category_id data = EmptyString -> row_category_id r = null)
             /\ (location data = Some EmptyString -> row_location r = null)
             /\ row_category_id r <> value EmptyString
             /\ row_location r <> value EmptyString)
          rows)
    /\ (forall u iso,
           user = Some u ->
           DateString.toISOString (newDate zone (date data)) = Some iso ->
           exists r, In (Insert [r]) (onSubmit zone user insert data)).
Proof.
  intros zone user insert data. split.
  - intros rows Hin. unfold onSubmit in Hin.
    destruct user as [u |]; [| destruct Hin].
    destruct (DateString.toISOString (newDate zone (date data))) as [iso |].
    + cbn [app] in Hin. destruct Hin as [H | [H | H]]; [discriminate H | |].
      * injection H as <-. constructor; [| constructor].
        cbn [row_is_regret row_regret_reason row_regret_intensity
               row_category_id row_location].
        split; [reflexivity |].
        split; [intros ->; split; reflexivity |].
        split; [intros ->; reflexivity |].
        split; [intros ->; reflexivity |].
        split;
          [exact (or_null_not_empty (Some (category_id data)))
          | exact (or_null_not_empty (location data))].
      * apply in_app_or in H. destruct H as [H | H].
        -- destruct (insert _); cbn in H;
             repeat (destruct H as [H | H]; [discriminate H |]);
             destruct H.
        -- cbn in H. destruct H as [H | []]. discriminate H.
    + cbn in Hin.
      repeat (destruct Hin as [Hin | Hin]; [discriminate Hin |]).
      destruct Hin.
  - intros u iso -> Hiso. unfold onSubmit. rewrite Hiso.
    eexists. cbn [app]. right. left. reflexivity.
Qed.

End QuickExpenseClaims.

(* ------------------------------------------------------------------ *)
(** ** More on budget progress *)
(* ------------------------------------------------------------------ *)

Section MoreFloats.
Local Open Scope float_scope.

(** A positive number divided by zero is +Infinity. *)
Lemma float_div_zero (s : float) : (0 <? s) = true -> s / 0 = infinity.
Proof.
  intros H. apply Prim2SF_inj. rewrite FloatAxioms.div_spec.
  rewrite FloatAxioms.ltb_spec in H.
  change (Prim2SF 0) with (S754_zero false) in *.
  change (Prim2SF infinity) with (S754_infinity false).
  destruct (Prim2SF s) as [sx | [|] | | [|] m e]; try discriminate H;
    reflexivity.
Qed.

Lemma Math_min_le_l (x y : float) : (x <? Math.min x y) = false.
Proof. rewrite Math_min_comm. apply Math_min_le_r. Qed.

Lemma fold_sum_app {A : Type} (f : A -> float) (l1 l2 : list A) :
  reduce_sum f (l1 ++ l2)
  = fold_left (fun sum x => sum + f x) l2 (reduce_sum f l1).
Proof. unfold reduce_sum. apply fold_left_app. Qed.

End MoreFloats.

Section MoreBudgetProgress.
Import DateFns Budgets.

Variable zone : ES.TimeZone.
Variable now : Z.

Lemma in_budgetProgress (budgets : list Budget.t) (E : list Expense.t)
      (p : BudgetProgress) :
  In p (budgetProgress zone now budgets E) ->
  exists B,
    In B budgets
    /\ p = progressOf zone (startOfMonth zone (Some now))
                      (endOfMonth zone (Some now)) E B.
Proof.
  unfold budgetProgress. intros H. apply in_map_iff in H.
  destruct H as (B & <- & HB). exists B. split; [exact HB | reflexivity].
Qed.

(** X1. The page flags a budget as over exactly when it shows a negative
    remainder: in every record, [isOverBudget] is [remaining < 0]. *)
Theorem over_budget_exactly_when_remaining_negative :
  forall budgets expenses p,
    In p (budgetProgress zone now budgets expenses) ->
    isOverBudget p = (remaining p <? 0)%float.
Proof.
  intros budgets expenses p Hp.
  destruct (in_budgetProgress _ _ _ Hp) as (B & _ & ->).
  unfold progressOf. cbn [isOverBudget remaining]. unfold gtb.
  symmetry. apply float_sub_negative.
Qed.

(** X2. A budget whose amount is zero: the percentage is NaN when nothing
    was spent, and 100, with the budget over, as soon as something was. *)
Theorem budget_of_zero_amount :
  forall budgets expenses p,
    In p (budgetProgress zone now budgets expenses) ->
    amount p = 0%float ->
    (spent p = 0%float ->
     percentage p = nan /\ isOverBudget p = false)
    /\ ((0 <? spent p)%float = true ->
        percentage p = 100%float /\ isOverBudget p = true).
Proof.
  intros budgets expenses p Hp Ha.
  destruct (in_budgetProgress _ _ _ Hp) as (B & _ & ->).
  unfold progressOf in *. cbn [amount spent percentage isOverBudget] in *.
  rewrite Ha. clear Ha.
  set (s := reduce_sum Expense.amount _).
  split; intros Hs.
  - rewrite Hs. split; reflexivity.
  - rewrite (float_div_zero s Hs). split; [reflexivity | exact Hs].
Qed.

Hypothesis Hzone : ES.regular zone.

(** X3. An expense that is of another category (or of none), or is dated
    outside the current month window (or has no valid date), changes
    nothing in the output, wherever it stands in the list. *)
Theorem budget_progress_ignores_unmatched_expense :
  forall budgets E1 e E2,
    (forall B, In B budgets ->
               Spec.sameCategory e B && Spec.dateInCurrentMonth zone now e
               = false) ->
    budgetProgress zone now budgets (E1 ++ e :: E2)
    = budgetProgress zone now budgets (E1 ++ E2).
Proof.
  intros budgets E1 e E2 H. unfold budgetProgress.
  apply map_ext_in. intros B HB. unfold progressOf.
  rewrite !(categoryExpenses_spec zone now Hzone).
  rewrite !filter_app. cbn [filter]. rewrite (H B HB). reflexivity.
Qed.

(** X4. A new expense of the budget's category dated in the current month
    window, added at the end of the list, raises [spent] by its amount:
    the new [spent] is the old one plus the amount, and the new
    [remaining] the budget's amount minus that. *)
Theorem budget_progress_counts_matched_expense :
  forall budgets E e i B,
    nth_error budgets i = Some B ->
    Spec.sameCategory e B = true ->
    Spec.dateInCurrentMonth zone now e = true ->
    exists p p',
      nth_error (budgetProgress zone now budgets E) i = Some p
      /\ nth_error (budgetProgress zone now budgets (E ++ [e])) i = Some p'
      /\ spent p' = (spent p + Expense.amount e)%float
      /\ remaining p'
         = (Budget.amount B - (spent p + Expense.amount e))%float.
Proof.
  intros budgets E e i B HB Hc Hd.
  rewrite !budgetProgress_nth, HB. cbn [option_map].
  eexists. eexists. split; [reflexivity |]. split; [reflexivity |].
  unfold progressOf. cbn [spent remaining].
  rewrite !(categoryExpenses_spec zone now Hzone), filter_app.
  cbn [filter]. rewrite Hc, Hd. cbn [andb].
  rewrite fold_sum_app. split; reflexivity.
Qed.

End MoreBudgetProgress.

(* ------------------------------------------------------------------ *)
(** ** The month window over time *)
(* ------------------------------------------------------------------ *)

Section WindowOverTime.
Import ES Spec DateFns.

Variable zone : TimeZone.
Hypothesis Hzone : regular zone.

Lemma window_same_month (now now' : Z) :
  inCurrentMonth zone now now' = true ->
  startOfMonth zone (Some now') = startOfMonth zone (Some now)
  /\ endOfMonth zone (Some now') = endOfMonth zone (Some now).
Proof.
  intros H. unfold inCurrentMonth in H.
  apply andb_true_iff in H. destruct H as [Hy Hm].
  apply Z.eqb_eq in Hy. apply Z.eqb_eq in Hm.
  rewrite !(startOfMonth_eq zone _ Hzone), !(endOfMonth_eq zone _ Hzone).
  unfold monthStartInstant, monthEndInstant. cbv zeta.
  rewrite Hy, Hm. split; reflexivity.
Qed.

(** X5. While the clock stays within one calendar month of the host's
    local time the results do not move: the budget progress is the same at
    any two instants of the month, and so is everything on the dashboard
    for a given reading of [Date.now()]. *)
Theorem results_stable_within_month :
  forall now now',
    inCurrentMonth zone now now' = true ->
    (forall budgets expenses,
        Budgets.budgetProgress zone now' budgets expenses
        = Budgets.budgetProgress zone now budgets expenses)
    /\ (forall dateNow expenses budgets payments challenges insights,
           Dashboard.render zone now' dateNow expenses budgets payments
                            challenges insights
           = Dashboard.render zone now dateNow expenses budgets payments
                              challenges insights).
Proof.
  intros now now' H. destruct (window_same_month now now' H) as [Hs He].
  split.
  - intros budgets expenses. unfold Budgets.budgetProgress.
    rewrite Hs, He. reflexivity.
  - intros. unfold Dashboard.render. rewrite Hs, He. reflexivity.
Qed.

End WindowOverTime.

Section FixedOffsetHost.
Import ES Spec DateFns.

Variable tza : Z.
Hypothesis Htza : - msPerDay <= tza <= msPerDay.

Let zone : TimeZone := fixedOffset tza.

Lemma fixed_window_test (now : Z) (e : Expense.t) :
  dateInCurrentMonth zone now e
  = match newDate zone (Expense.date e) with
    | Some t => inCurrentMonth zone now t
    | None => false
    end.
Proof.
  unfold dateInCurrentMonth.
  destruct (newDate zone (Expense.date e)) as [t |]; [| reflexivity].
  apply window_is_calendar_month.
Qed.

Lemma same_month_index (now t : Z) :
  inCurrentMonth zone now t = true
  <-> monthIndex (Day (LocalTime zone t))
      = monthIndex (Day (LocalTime zone now)).
Proof.
  unfold inCurrentMonth. rewrite andb_true_iff, !Z.eqb_eq.
  destruct (monthIndex_year_month (LocalTime zone now)) as [H1 H2].
  destruct (monthIndex_year_month (LocalTime zone t)) as [H3 H4].
  lia.
Qed.

(** X6. On a host whose offset from UTC is fixed, the window the pages
    build is the calendar month of the host's local time: an instant passes
    the date test exactly when its local year and month are those of the
    reading of the clock. *)
Theorem window_is_calendar_month_on_fixed_offset :
  forall now t,
    isWithinInterval (Some t)
      {| start := startOfMonth zone (Some now);
         end_ := endOfMonth zone (Some now) |}
    = inCurrentMonth zone now t.
Proof.
  intros now t.
  rewrite (isWithinInterval_window zone now
             (fixedOffset_regular tza Htza)).
  apply window_is_calendar_month.
Qed.

(** X7. On such a host an expense is counted in one month only: if it is
    among the expenses of the month at two readings of the clock, the two
    readings lie in the same calendar month. *)
Theorem expense_counted_in_one_month :
  forall now now' expenses e,
    In e (Dashboard.monthlyExpenses zone (startOfMonth zone (Some now))
            (endOfMonth zone (Some now)) expenses) ->
    In e (Dashboard.monthlyExpenses zone (startOfMonth zone (Some now'))
            (endOfMonth zone (Some now')) expenses) ->
    inCurrentMonth zone now now' = true.
Proof.
  intros now now' expenses e H H'.
  rewrite (monthlyExpenses_spec zone now (fixedOffset_regular tza Htza))
    in H.
  rewrite (monthlyExpenses_spec zone now' (fixedOffset_regular tza Htza))
    in H'.
  apply filter_In in H. apply filter_In in H'.
  destruct H as [_ H]. destruct H' as [_ H'].
  rewrite fixed_window_test in H, H'.
  destruct (newDate zone (Expense.date e)) as [t |]; [| discriminate H].
  apply same_month_index in H. apply same_month_index in H'.
  apply same_month_index. congruence.
Qed.

(** X8. On such a host an expense dated at the very instant at which the
    clock is read is counted: it is among the expenses of the month and
    among those of any budget of its category. *)
Theorem expense_dated_now_is_counted :
  forall now expenses e,
    In e expenses ->
    newDate zone (Expense.date e) = Some now ->
    In e (Dashboard.monthlyExpenses zone (startOfMonth zone (Some now))
            (endOfMonth zone (Some now)) expenses)
    /\ forall B,
         Spec.sameCategory e B = true ->
         In e (Budgets.categoryExpenses zone (startOfMonth zone (Some now))
                 (endOfMonth zone (Some now)) expenses B).
Proof.
  intros now expenses e He Hd.
  assert (Hin : dateInCurrentMonth zone now e = true).
  { rewrite fixed_window_test, Hd. apply same_month_index. reflexivity. }
  split.
  - rewrite (monthlyExpenses_spec zone _ (fixedOffset_regular tza Htza)).
    apply filter_In. split; assumption.
  - intros B HB.
    rewrite (categoryExpenses_spec zone _ (fixedOffset_regular tza Htza)).
    apply filter_In. split; [exact He |]. rewrite HB, Hin. reflexivity.
Qed.

End FixedOffsetHost.

(* ------------------------------------------------------------------ *)
(** ** Dates written and read back *)
(* ------------------------------------------------------------------ *)

Section RoundTrip.
Import ES DateString.

Lemma digit_of_decimal (x : Z) :
  0 <= x <= 9 -> digit (ascii_of_nat (48 + Z.to_nat x)) = Some x.
Proof.
  intros H.
  assert (x = 0 \/ x = 1 \/ x = 2 \/ x = 3 \/ x = 4 \/ x = 5 \/ x = 6
          \/ x = 7 \/ x = 8 \/ x = 9) as Hx by lia.
  repeat (destruct Hx as [-> | Hx]; [reflexivity |]). subst x. reflexivity.
Qed.

Lemma list_ascii_of_string_app (a b : string) :
  list_ascii_of_string (a ++ b)
  = (list_ascii_of_string a ++ list_ascii_of_string b)%list.
Proof.
  induction a as [| c a IH]; cbn; [reflexivity |]. now rewrite IH.
Qed.

Lemma digits_app (k j : nat) (acc : Z) (s : list ascii) :
  digits (k + j) acc s
  = bind (digits k acc s) (fun '(v, r) => digits j v r).
Proof.
  revert acc s. induction k as [| k IH]; intros acc s;
    cbn [Nat.add digits bind].
  - reflexivity.
  - destruct s as [| c r]; [reflexivity |].
    destruct (digit c); [apply IH | reflexivity].
Qed.

(** Reading back a zero-padded decimal. *)
Lemma digits_pad (k : nat) (n acc : Z) (rest : list ascii) :
  0 <= n < 10 ^ Z.of_nat k ->
  digits k acc (list_ascii_of_string (pad k n) ++ rest)
  = Some (acc * 10 ^ Z.of_nat k + n, rest).
Proof.
  revert n acc rest. induction k as [| k IH]; intros n acc rest Hn.
  - cbn. f_equal. f_equal. cbn in Hn. lia.
  - replace (S k) with (k + 1)%nat at 1 by lia.
    cbn [pad]. rewrite list_ascii_of_string_app, <- app_assoc, digits_app.
    rewrite Nat2Z.inj_succ, Z.pow_succ_r in * by lia.
    rewrite IH by (Z.div_mod_to_equations; nia).
    cbn [bind list_ascii_of_string app digits].
    rewrite digit_of_decimal by (Z.div_mod_to_equations; lia).
    f_equal. f_equal. Z.div_mod_to_equations; nia.
Qed.

Lemma digits_pad2 (n : Z) (rest : list ascii) :
  0 <= n <= 99 ->
  digits 2 0 (list_ascii_of_string (pad 2 n) ++ rest) = Some (n, rest).
Proof.
  intros H. rewrite digits_pad by (change (10 ^ Z.of_nat 2) with 100; lia).
  reflexivity.
Qed.

Lemma digits_pad4 (n : Z) (rest : list ascii) :
  0 <= n <= 9999 ->
  digits 4 0 (list_ascii_of_string (pad 4 n) ++ rest) = Some (n, rest).
Proof.
  intros H. rewrite digits_pad by (change (10 ^ Z.of_nat 4) with 10000; lia).
  reflexivity.
Qed.

Lemma milliseconds_pad (ms : Z) (c : ascii) (rest : list ascii) :
  0 <= ms < 1000 ->
  digit c = None ->
  milliseconds (list_ascii_of_string (pad 3 ms) ++ c :: rest)
  = Some (ms, c :: rest).
Proof.
  intros Hms Hc. unfold milliseconds. cbn [pad].
  rewrite !list_ascii_of_string_app. cbn [list_ascii_of_string app fraction].
  rewrite !digit_of_decimal by (Z.div_mod_to_equations; lia).
  cbn [Nat.ltb Nat.leb fraction]. rewrite Hc.
  f_equal. f_equal. Z.div_mod_to_equations; lia.
Qed.

Lemma civil_from_days_day_le_31 (z : Z) :
  let '(_, _, d) := civil_from_days z in d <= 31.
Proof.
  unfold civil_from_days.
  set (z' := z + 719468).
  set (era := z' / 146097).
  set (doe := z' - era * 146097).
  set (yoe := (doe - doe / 1460 + doe / 36524 - doe / 146096) / 365).
  set (doy := doe - (365 * yoe + yoe / 4 - yoe / 100)).
  set (mp := (5 * doy + 2) / 153).
  assert (Hdoe : 0 <= doe <= 146096) by (subst doe era; div_lia).
  assert (Hyoe : 0 <= yoe <= 399) by (subst yoe; div_lia).
  assert (Hdoy : 0 <= doy <= 365) by (subst doy yoe; div_lia).
  subst mp. clearbody doy. div_lia.
Qed.

Lemma time_of_day_parts (t : Z) :
  MakeTime (HourFromTime t) (MinFromTime t) (SecFromTime t) (msFromTime t)
  = TimeWithinDay t.
Proof.
  unfold MakeTime, HourFromTime, MinFromTime, SecFromTime, msFromTime,
    TimeWithinDay, msPerDay, msPerHour, msPerMinute, msPerSecond.
  div_lia.
Qed.

Lemma date_parts (t : Z) :
  MakeDay (YearFromTime t) (MonthFromTime t + 1 - 1) (DateFromTime t) = Day t
  /\ 1 <= MonthFromTime t + 1 <= 12
  /\ 1 <= DateFromTime t <= 31.
Proof.
  unfold YearFromTime, MonthFromTime, DateFromTime.
  pose proof (civil_from_days_spec (Day t)) as Hs.
  pose proof (civil_from_days_day_le_31 (Day t)) as Hd.
  destruct (civil_from_days (Day t)) as [[y m] d].
  destruct Hs as (Hm & Hd1 & Hz).
  split; [| lia].
  unfold MakeDay.
  replace ((m - 1 + 1 - 1) / 12) with 0 by div_lia.
  replace ((m - 1 + 1 - 1) mod 12 + 1) with m by div_lia.
  replace (y + 0) with y by lia.
  rewrite days_from_civil_day in Hz. lia.
Qed.

Local Opaque pad.

Ltac read_on :=
  cbn [bind list_ascii_of_string app expect Ascii.eqb Bool.eqb andb negb].

(** Reading back what [toISOString] wrote gives the same instant. *)
Lemma parse_toISOString (zone : TimeZone) (t : Z) (iso : string) :
  0 <= YearFromTime t <= 9999 ->
  toISOString (Some t) = Some iso ->
  parse zone iso = Some t.
Proof.
  intros Hy [= <-].
  destruct (date_parts t) as (Hday & Hmo & Hd).
  pose proof (time_of_day_parts t) as Htime.
  assert (Hh : 0 <= HourFromTime t <= 23) by (unfold HourFromTime; div_lia).
  assert (Hmi : 0 <= MinFromTime t <= 59) by (unfold MinFromTime; div_lia).
  assert (Hs : 0 <= SecFromTime t <= 59) by (unfold SecFromTime; div_lia).
  assert (Hms : 0 <= msFromTime t <= 999)
    by (unfold msFromTime, msPerSecond; div_lia).
  unfold parse, year_string.
  destruct (Z.leb_spec 0 (YearFromTime t)); [| lia].
  destruct (Z.leb_spec (YearFromTime t) 9999); [| lia].
  cbn [andb].
  rewrite list_ascii_of_string_app, digits_pad4 by lia. read_on.
  rewrite list_ascii_of_string_app, digits_pad2 by lia. read_on.
  rewrite list_ascii_of_string_app, digits_pad2 by lia. read_on.
  destruct (Z.leb_spec 1 (MonthFromTime t + 1)); [| lia].
  destruct (Z.leb_spec (MonthFromTime t + 1) 12); [| lia].
  destruct (Z.leb_spec 1 (DateFromTime t)); [| lia].
  destruct (Z.leb_spec (DateFromTime t) 31); [| lia].
  cbn [andb negb].
  rewrite list_ascii_of_string_app, digits_pad2 by lia. read_on.
  rewrite list_ascii_of_string_app, digits_pad2 by lia. read_on.
  unfold seconds. read_on.
  rewrite list_ascii_of_string_app, digits_pad2 by lia. read_on.
  rewrite list_ascii_of_string_app.
  cbn [list_ascii_of_string].
  rewrite milliseconds_pad by (lia || reflexivity).
  cbn [bind offset Ascii.eqb Bool.eqb andb].
  unfold valid_time.
  destruct (Z.leb_spec (HourFromTime t) 23); [| lia].
  destruct (Z.leb_spec (MinFromTime t) 59); [| lia].
  destruct (Z.leb_spec (SecFromTime t) 59); [| lia].
  cbn [andb orb negb].
  rewrite Hday, Htime. f_equal.
  unfold MakeDate, Day, TimeWithinDay, msPerDay. div_lia.
Qed.

Local Transparent pad.

End RoundTrip.

(* ------------------------------------------------------------------ *)
(** ** Saving and deleting a budget *)
(* ------------------------------------------------------------------ *)

Section BudgetHandlers.
Import ES DateFns Budgets.

Variable zone : TimeZone.
Variable now : Z.

Lemma window_is_dated :
  exists s e,
    startOfMonth zone (Some now) = Some s
    /\ endOfMonth zone (Some now) = Some e.
Proof. eexists. eexists. split; reflexivity. Qed.

(** X9. Saving a budget sends one request to the store, an update of the
    budget being edited or else an insertion, with the user, category,
    amount and period of the form; whatever the period, its start and end
    dates read back, on any host, as the two ends of the month window in
    which the calculator evaluates it at that instant. *)
Theorem saved_budget_spans_the_current_month :
  forall (user : User.t) (editing : option Budget.t) (store : Store)
         (data : BudgetFormData),
    regular zone ->
    0 <= YearFromTime (Spec.monthStartInstant zone now) <= 9999 ->
    0 <= YearFromTime (Spec.monthEndInstant zone now) <= 9999 ->
    exists d,
      filter isWrite (onSubmit zone now (Some user) editing store data)
      = [match editing with
         | Some b => Update (Budget.id b) d
         | None => Insert [d]
         end]
      /\ data_user_id d = User.id user
      /\ data_category_id d = form_category_id data
      /\ data_amount d = form_amount data
      /\ data_period d = form_period data
      /\ forall zone',
           newDate zone' (data_start_date d) = startOfMonth zone (Some now)
           /\ newDate zone' (data_end_date d) = endOfMonth zone (Some now).
Proof.
  intros user editing store data Hzone Hs He.
  unfold onSubmit.
  rewrite (startOfMonth_eq zone now Hzone), (endOfMonth_eq zone now Hzone).
  destruct (DateString.toISOString (Some (Spec.monthStartInstant zone now)))
    as [startDate |] eqn:Es; [| discriminate Es].
  destruct (DateString.toISOString (Some (Spec.monthEndInstant zone now)))
    as [endDate |] eqn:Ee; [| discriminate Ee].
  eexists. split; [| split; [| split; [| split; [| split]]]].
  - destruct editing as [b |]; cbn [app filter isWrite].
    + destruct (update store _ _); reflexivity.
    + destruct (insert store _); reflexivity.
  - reflexivity.
  - reflexivity.
  - reflexivity.
  - reflexivity.
  - intros zone'. cbn [data_start_date data_end_date]. unfold newDate.
    split; apply parse_toISOString; assumption.
Qed.

(** X10. A save that the store accepts leaves the page as Cancel would,
    with the submit button released, and asks for a refresh; a save that the
    store refuses leaves the form as it was, open with its values, releases
    the button, shows the error and asks for no refresh.  Without a user
    nothing happens. *)
Theorem budget_save_outcomes :
  forall (user : User.t) (editing : option Budget.t) (store : Store)
         (data : BudgetFormData) (ui : UI),
    let events := onSubmit zone now (Some user) editing store data in
    ((forall id d, update store id d = None) ->
     (forall rows, insert store rows = None) ->
     run ui events = run ui (handleCancel ++ [SetIsSubmitting false])
     /\ In RefreshData events)
    /\ (forall message,
           (forall id d, update store id d = Some message) ->
           (forall rows, insert store rows = Some message) ->
           run ui events = apply ui (SetIsSubmitting false)
           /\ ~ In RefreshData events
           /\ In (ToastError message) events)
    /\ onSubmit zone now None editing store data = [].
Proof.
  intros user editing store data ui. cbv zeta. unfold onSubmit.
  destruct window_is_dated as (s & e & -> & ->).
  destruct (DateString.toISOString (Some s))
    as [startDate |] eqn:Es; [| discriminate Es].
  destruct (DateString.toISOString (Some e))
    as [endDate |] eqn:Ee; [| discriminate Ee].
  split; [| split; [| reflexivity]].
  - intros Hu Hi. destruct editing as [b |].
    + rewrite Hu. split; [reflexivity |]. cbn. tauto.
    + rewrite Hi. split; [reflexivity |]. cbn. tauto.
  - intros message Hu Hi. destruct editing as [b |].
    + rewrite Hu. split; [reflexivity |]. split.
      * cbn. intros H.
        repeat (destruct H as [H | H]; [discriminate H |]). exact H.
      * cbn. tauto.
    + rewrite Hi. split; [reflexivity |]. split.
      * cbn. intros H.
        repeat (destruct H as [H | H]; [discriminate H |]). exact H.
      * cbn. tauto.
Qed.

(** X11. Deleting a budget: declined in the dialog, nothing is sent; once
    confirmed, one deletion of that budget is sent, and a refresh follows
    exactly when the store accepted it.  The form is never touched. *)
Theorem budget_delete_outcomes :
  forall (store : Store) (budgetId : string),
    handleDelete false store budgetId = []
    /\ filter isWrite (handleDelete true store budgetId) = [Delete budgetId]
    /\ (In RefreshData (handleDelete true store budgetId)
        <-> delete store budgetId = None)
    /\ forall confirmed ui,
         run ui (handleDelete confirmed store budgetId) = ui.
Proof.
  intros store budgetId. unfold handleDelete. cbn [negb].
  split; [reflexivity |].
  destruct (delete store budgetId) as [message |].
  - split; [reflexivity |]. split.
    + cbn. split; [| discriminate].
      intros H. repeat (destruct H as [H | H]; [discriminate H |]).
      destruct H.
    + intros [|] ui; reflexivity.
  - split; [reflexivity |]. split.
    + cbn. tauto.
    + intros [|] ui; reflexivity.
Qed.

End BudgetHandlers.

(* ------------------------------------------------------------------ *)
(** ** Submitting an expense, continued *)
(* ------------------------------------------------------------------ *)

Section QuickExpenseFlow.
Import ES QuickExpense.

(** X12. The course of a submission by a signed-in user: the button is held
    from the first event to the last; at most one insertion is sent; the
    form is reset and a refresh asked for exactly when an insertion was
    sent and the store accepted it; a date that is no valid date sends
    nothing and shows an error. *)
Theorem expense_submission_course :
  forall (zone : TimeZone) (user : User.t)
         (insert : list ExpenseData -> option string)
         (data : ExpenseFormData),
    let events := onSubmit zone (Some user) insert data in
    (exists middle,
        events = SetIsSubmitting true :: middle ++ [SetIsSubmitting false])
    /\ (List.length (filter isInsert events) <= 1)%nat
    /\ (In RefreshData events <-> In ResetForm events)
    /\ (In RefreshData events
        <-> exists rows, In (Insert rows) events /\ insert rows = None)
    /\ (newDate zone (date data) = None ->
        filter isInsert events = []
        /\ In (ToastError "Invalid time value") events).
Proof.
  intros zone user insert data. cbv zeta. unfold onSubmit.
  destruct (newDate zone (date data)) as [t |].
  - cbn [DateString.toISOString].
    match goal with
    | |- context [insert [?r]] => set (row := r)
    end.
    destruct (insert [row]) as [message |] eqn:Ei.
    + split; [eexists; reflexivity |]. split; [cbn; lia |].
      split; [| split; [| discriminate]].
      * cbn. split; intros H;
          repeat (destruct H as [H | H]; [discriminate H |]); destruct H.
      * cbn. split.
        -- intros H.
           repeat (destruct H as [H | H]; [discriminate H |]). destruct H.
        -- intros (rows & H & Hr).
           repeat (destruct H as [H | H];
                   [try discriminate H; injection H as <-; congruence |]).
           destruct H.
    + split; [eexists; reflexivity |]. split; [cbn; lia |].
      split; [| split; [| discriminate]].
      * cbn. tauto.
      * cbn. split; [| tauto].
        intros _. exists [row]. split; [tauto | exact Ei].
  - cbn [DateString.toISOString].
    split; [eexists; reflexivity |]. split; [cbn; lia |].
    split; [| split; [| intros _; split; [reflexivity | cbn; tauto]]].
    + cbn. split; intros H;
        repeat (destruct H as [H | H]; [discriminate H |]); destruct H.
    + cbn. split.
      * intros H.
        repeat (destruct H as [H | H]; [discriminate H |]). destruct H.
      * intros (rows & H & _).
        repeat (destruct H as [H | H]; [discriminate H |]). destruct H.
Qed.

(** X13. The date stored with an expense reads back, on any host, as the
    instant that the date of the form denotes. *)
Theorem stored_expense_date_round_trip :
  forall (zone : TimeZone) (user : option User.t)
         (insert : list ExpenseData -> option string)
         (data : ExpenseFormData) (t : Z) (rows : list ExpenseData),
    newDate zone (date data) = Some t ->
    0 <= YearFromTime t <= 9999 ->
    In (Insert rows) (onSubmit zone user insert data) ->
    forall r zone', In r rows -> newDate zone' (row_date r) = Some t.
Proof.
  intros zone user insert data t rows Ht Hy Hin r zone' Hr.
  unfold onSubmit in Hin. destruct user as [u |]; [| destruct Hin].
  rewrite Ht in Hin.
  destruct (DateString.toISOString (Some t)) as [iso |] eqn:Eiso;
    [| discriminate Eiso].
  cbn [app] in Hin. destruct Hin as [H | [H | H]]; [discriminate H | |].
  - injection H as <-. destruct Hr as [<- | []].
    cbn [row_date]. apply parse_toISOString; assumption.
  - apply in_app_or in H. destruct H as [H | H].
    + destruct (insert _); cbn in H;
        repeat (destruct H as [H | H]; [discriminate H |]); destruct H.
    + cbn in H. destruct H as [H | []]. discriminate H.
Qed.

End QuickExpenseFlow.

Section DefaultDate.
Import ES DateString QuickExpense.

Lemma string_app_assoc (a b c : string) :
  ((a ++ b) ++ c = a ++ (b ++ c))%string.
Proof.
  induction a as [| x a IH]; cbn [append]; [reflexivity |].
  now rewrite IH.
Qed.

Lemma decimal_is_not_T (x : Z) :
  0 <= x <= 9 -> Ascii.eqb (ascii_of_nat (48 + Z.to_nat x)) "T" = false.
Proof.
  intros H.
  assert (x = 0 \/ x = 1 \/ x = 2 \/ x = 3 \/ x = 4 \/ x = 5 \/ x = 6
          \/ x = 7 \/ x = 8 \/ x = 9) as Hx by lia.
  repeat (destruct Hx as [-> | Hx]; [reflexivity |]). subst x. reflexivity.
Qed.

Lemma beforeT_pad (k : nat) (n : Z) (rest : string) :
  beforeT (pad k n ++ rest) = (pad k n ++ beforeT rest)%string.
Proof.
  revert n rest. induction k as [| k IH]; intros n rest; cbn [pad].
  - reflexivity.
  - rewrite !string_app_assoc, IH. f_equal.
    cbn [append beforeT].
    rewrite decimal_is_not_T by div_lia. reflexivity.
Qed.

Local Opaque pad.

(** X14. The date that the form proposes is the day of [now] in UTC: it
    reads back as the midnight that opens that day, so it is never in the
    future and never a full day old. *)
Theorem default_date_is_today_in_utc :
  forall (zone : TimeZone) (now : Z) (v : ExpenseFormData),
    0 <= YearFromTime now <= 9999 ->
    defaultValues now = Some v ->
    newDate zone (date v) = Some (Day now * msPerDay)
    /\ Day now * msPerDay <= now < Day now * msPerDay + msPerDay.
Proof.
  intros zone now v Hy Hv. split; [| unfold Day, msPerDay; div_lia].
  unfold defaultValues in Hv. cbn [toISOString] in Hv.
  injection Hv as <-. cbn [date].
  destruct (date_parts now) as (Hday & Hmo & Hd).
  unfold year_string.
  destruct (Z.leb_spec 0 (YearFromTime now)); [| lia].
  destruct (Z.leb_spec (YearFromTime now) 9999); [| lia].
  cbn [andb].
  rewrite beforeT_pad. cbn [append beforeT Ascii.eqb Bool.eqb andb].
  rewrite beforeT_pad. cbn [append beforeT Ascii.eqb Bool.eqb andb].
  rewrite beforeT_pad. cbn [append beforeT Ascii.eqb Bool.eqb andb].
  unfold newDate, parse.
  rewrite list_ascii_of_string_app, digits_pad4 by lia.
  cbn [bind list_ascii_of_string app expect Ascii.eqb Bool.eqb andb negb].
  rewrite list_ascii_of_string_app, digits_pad2 by lia.
  cbn [bind list_ascii_of_string app expect Ascii.eqb Bool.eqb andb negb].
  rewrite list_ascii_of_string_app, digits_pad2 by lia.
  cbn [bind list_ascii_of_string app].
  destruct (Z.leb_spec 1 (MonthFromTime now + 1)); [| lia].
  destruct (Z.leb_spec (MonthFromTime now + 1) 12); [| lia].
  destruct (Z.leb_spec 1 (DateFromTime now)); [| lia].
  destruct (Z.leb_spec (DateFromTime now) 31); [| lia].
  cbn [andb negb]. rewrite Hday. unfold MakeDate. f_equal. lia.
Qed.

Local Transparent pad.

End DefaultDate.

Section HostOffset.
Import ES Spec DateFns.

(** X15. The form stores a day as its midnight in UTC, the month window
    is local: on a host with a fixed offset, an expense dated at UTC
    midnight of the first day of the current month is counted in the month
    when the host is at or east of Greenwich, and not counted when it is
    west of it. *)
Theorem first_day_entry_depends_on_host_offset :
  forall (tza now : Z) (expenses : list Expense.t) (e : Expense.t),
    - msPerDay < tza < msPerDay ->
    In e expenses ->
    newDate (fixedOffset tza) (Expense.date e)
    = Some (MakeDate
              (MakeDay (YearFromTime (LocalTime (fixedOffset tza) now))
                       (MonthFromTime (LocalTime (fixedOffset tza) now)) 1)
              0) ->
    (In e (Dashboard.monthlyExpenses (fixedOffset tza)
             (startOfMonth (fixedOffset tza) (Some now))
             (endOfMonth (fixedOffset tza) (Some now)) expenses)
     <-> 0 <= tza).
Proof.
  intros tza now expenses e Htz He Hd.
  assert (Hzone : regular (fixedOffset tza))
    by (apply fixedOffset_regular; lia).
  rewrite (monthlyExpenses_spec _ now Hzone), filter_In.
  unfold dateInCurrentMonth, inCurrentMonthWindow. rewrite Hd.
  rewrite monthStartInstant_eq, monthEndInstant_eq.
  destruct (monthIndex_year_month (LocalTime (fixedOffset tza) now))
    as [HK _].
  rewrite MakeDay_firstOfMonth, <- HK.
  set (K := monthIndex (Day (LocalTime (fixedOffset tza) now))).
  pose proof (firstOfMonth_succ K) as Hlt.
  rewrite andb_true_iff, !Z.leb_le.
  unfold UTC, fixedOffset, MakeDate, msPerDay in *. split.
  - intros [_ [H _]]. lia.
  - intros H. split; [exact He |]. lia.
Qed.

End HostOffset.

(* ------------------------------------------------------------------ *)
(** ** More on the dashboard *)
(* ------------------------------------------------------------------ *)

Section Slices.
Context {A : Type} (keep : A -> bool).

Lemma firstn_filter_in (n : nat) (l : list A) (x : A) :
  In x (firstn n (filter keep l)) -> In x l /\ keep x = true.
Proof.
  intros H. apply filter_In. revert n H.
  induction (filter keep l) as [| y m IH]; intros [| n] H; cbn in H;
    try destruct H.
  - left. assumption.
  - right. eapply IH. eassumption.
Qed.

End Slices.

Section MoreDashboard.
Import DateFns Dashboard.

Variable zone : ES.TimeZone.
Variables now dateNow : Z.
Variable expenses : list Expense.t.
Variable budgets : list Budget.t.
Variable recurringPayments : list RecurringPayment.t.
Variable savingsChallenges : list SavingsChallenge.t.
Variable insights : list Insight.t.

Let view : View :=
  render zone now dateNow expenses budgets recurringPayments
         savingsChallenges insights.

(** X16. The lists of the dashboard: the recent expenses are the first
    five of the snapshot, or all of them when there are fewer; at most three
    challenges are shown, none of them completed, and all the open ones when
    there are at most three; likewise for the unread insights. *)
Theorem dashboard_lists :
  (exists rest, expenses = recentExpenses view ++ rest)
  /\ List.length (recentExpenses view)
     = Nat.min 5 (List.length expenses)
  /\ (List.length (activeChallenges view) <= 3)%nat
  /\ (forall c, In c (activeChallenges view) ->
                In c savingsChallenges
                /\ SavingsChallenge.is_completed c = false)
  /\ (forall open,
         open = filter (fun c => negb (SavingsChallenge.is_completed c))
                       savingsChallenges ->
         (List.length open <= 3)%nat -> activeChallenges view = open)
  /\ (List.length (unreadInsights view) <= 3)%nat
  /\ (forall i, In i (unreadInsights view) ->
                In i insights /\ Insight.is_read i = false)
  /\ (forall unread,
         unread = filter (fun i => negb (Insight.is_read i)) insights ->
         (List.length unread <= 3)%nat -> unreadInsights view = unread).
Proof.
  unfold view, render.
  cbn [recentExpenses activeChallenges unreadInsights].
  split; [exists (skipn 5 expenses); symmetry; apply firstn_skipn |].
  split; [apply length_firstn |].
  split; [apply firstn_le_length |].
  split.
  { intros c H. apply firstn_filter_in in H. destruct H as [H1 H2].
    split; [exact H1 |]. apply negb_true_iff. exact H2. }
  split; [intros open -> H; apply firstn_all2; exact H |].
  split; [apply firstn_le_length |].
  split.
  { intros i H. apply firstn_filter_in in H. destruct H as [H1 H2].
    split; [exact H1 |]. apply negb_true_iff. exact H2. }
  intros unread -> H. apply firstn_all2. exact H.
Qed.

End MoreDashboard.

Section MoreMath.
Local Open Scope float_scope.

Lemma float_nan_ltb (x : float) : (nan <? x) = false.
Proof.
  rewrite FloatAxioms.ltb_spec. change (Prim2SF nan) with S754_nan.
  reflexivity.
Qed.

(** [Math.max(x, y)] is never below [x]. *)
Lemma Math_max_ge_l (x y : float) : (Math.max x y <? x) = false.
Proof.
  unfold Math.max. rewrite FloatAxioms.compare_spec.
  destruct (SFcompare (Prim2SF x) (Prim2SF y)) as [[| |] |] eqn:E;
    cbn [flatten_cmp_opt].
  - destruct (get_sign x); [| apply float_ltb_irrefl].
    rewrite FloatAxioms.ltb_spec. unfold SFltb.
    rewrite SFcompare_swap, E. reflexivity.
  - rewrite FloatAxioms.ltb_spec. unfold SFltb.
    rewrite SFcompare_swap, E. reflexivity.
  - apply float_ltb_irrefl.
  - apply float_nan_ltb.
Qed.

Lemma Math_max_l (x y : float) : (y <? x) = true -> Math.max x y = x.
Proof.
  intros H. unfold Math.max. rewrite FloatAxioms.compare_spec.
  rewrite FloatAxioms.ltb_spec in H. unfold SFltb in H.
  rewrite SFcompare_swap in H.
  destruct (SFcompare (Prim2SF x) (Prim2SF y)) as [[| |] |];
    try discriminate H; reflexivity.
Qed.

Lemma float_sub_zero (x : float) : x - 0 = x.
Proof.
  apply Prim2SF_inj. rewrite FloatAxioms.sub_spec.
  change (Prim2SF 0) with (S754_zero false).
  destruct (Prim2SF x) as [[|] | [|] | | s m e]; reflexivity.
Qed.

End MoreMath.

Section DashboardNumbers.
Import DateFns Dashboard.

Variable zone : ES.TimeZone.
Variables now dateNow : Z.
Variable expenses : list Expense.t.
Variable budgets : list Budget.t.
Variable recurringPayments : list RecurringPayment.t.
Variable savingsChallenges : list SavingsChallenge.t.
Variable insights : list Insight.t.

Let st : MonthlyStats :=
  stats (render zone now dateNow expenses budgets recurringPayments
                savingsChallenges insights).

(** X17. The "Budget Remaining" card never shows a negative number; it
    reads "Over budget!" exactly when more was spent in the month than all
    budgets together allow, and then shows 0. *)
Theorem budget_remaining_card :
  (budgetRemainingShown st <? 0)%float = false
  /\ (budgetRemainingChange st = "Over budget!"%string
      <-> (totalBudget st <? totalSpent st)%float = true)
  /\ (budgetRemainingChange st = "Over budget!"%string ->
      budgetRemainingShown st = 0%float).
Proof.
  unfold budgetRemainingShown, budgetRemainingChange.
  assert (Hr : budgetRemaining st = (totalBudget st - totalSpent st)%float)
    by reflexivity.
  split; [apply Math_max_ge_l |].
  rewrite <- (float_sub_negative (totalBudget st) (totalSpent st)), <- Hr.
  destruct (budgetRemaining st <? 0)%float eqn:E.
  - split; [split; reflexivity |]. intros _. apply Math_max_l. exact E.
  - split; [split; discriminate | discriminate].
Qed.

Hypothesis Hzone : ES.regular zone.

(** X18. A month without expenses: when no expense of the snapshot is
    dated in the current month window, nothing is counted, nothing is
    spent, and all of the budget remains. *)
Theorem month_without_expenses :
  (forall e, In e expenses -> Spec.dateInCurrentMonth zone now e = false) ->
  expenseCount st = 0%nat
  /\ totalSpent st = 0%float
  /\ regretSpending st = 0%float
  /\ budgetRemaining st = totalBudget st.
Proof.
  intros Hnone.
  assert (E : monthlyExpenses zone (startOfMonth zone (Some now))
                (endOfMonth zone (Some now)) expenses = []).
  { rewrite (monthlyExpenses_spec zone now Hzone). apply filter_none.
    exact Hnone. }
  unfold st, render, monthlyStats.
  cbn [stats expenseCount totalSpent regretSpending budgetRemaining
         totalBudget].
  rewrite E. cbn [filter List.length].
  change (reduce_sum Expense.amount []) with 0%float.
  repeat split. apply float_sub_zero.
Qed.

End DashboardNumbers.

Section UpcomingOverTime.
Import DateFns Dashboard.

Variable zone : ES.TimeZone.
Variables now dateNow : Z.
Variable expenses : list Expense.t.
Variable budgets : list Budget.t.
Variable recurringPayments : list RecurringPayment.t.
Variable savingsChallenges : list SavingsChallenge.t.
Variable insights : list Insight.t.

Let st : MonthlyStats :=
  stats (render zone now dateNow expenses budgets recurringPayments
                savingsChallenges insights).

(** X19. The list of upcoming payments only grows as time passes: a
    payment listed at one reading of the clock is listed at every later
    one, until its due date changes.  A payment whose due date is no valid
    date is never listed. *)
Theorem upcoming_payments_over_time :
  forall dateNow',
    dateNow <= dateNow' ->
    let st' :=
      stats (render zone now dateNow' expenses budgets recurringPayments
                    savingsChallenges insights) in
    (forall p, In p (upcomingPayments st) -> In p (upcomingPayments st'))
    /\ (forall p,
           newDate zone (RecurringPayment.next_due_date p) = None ->
           ~ In p (upcomingPayments st)).
Proof.
  intros dateNow' Hle. cbv zeta. unfold st, render, monthlyStats.
  cbn [stats upcomingPayments]. split.
  - intros p. rewrite !filter_In. intros [Hp Hd]. split; [exact Hp |].
    unfold DateProto.leb in *.
    destruct (newDate zone (RecurringPayment.next_due_date p)) as [t |];
      [| discriminate Hd].
    apply Z.leb_le in Hd. apply Z.leb_le. lia.
  - intros p Hn. rewrite filter_In, Hn. intros [_ H]. discriminate H.
Qed.

(** X24. Every payment the dashboard lists as upcoming is due no later
    than seven days after the reading of the clock; a payment due three
    days after it is listed, and one due eight days after it is not. *)
Theorem upcoming_payments_within_week_ahead :
  (forall p,
      In p (upcomingPayments st) ->
      In p recurringPayments
      /\ exists t,
           newDate zone (RecurringPayment.next_due_date p) = Some t
           /\ t <= dateNow + Spec.days 7)
  /\ (forall p,
         In p recurringPayments ->
         newDate zone (RecurringPayment.next_due_date p)
         = Some (dateNow + Spec.days 3) ->
         In p (upcomingPayments st))
  /\ (forall p,
         newDate zone (RecurringPayment.next_due_date p)
         = Some (dateNow + Spec.days 8) ->
         ~ In p (upcomingPayments st)).
Proof.
  pose proof (upcomingPayments_spec zone now dateNow expenses budgets
                recurringPayments savingsChallenges insights) as Hin.
  fold st in Hin.
  split; [intros p Hp; apply Hin; exact Hp |]. split.
  - intros p Hp Hd. apply Hin. split; [exact Hp |].
    eexists. split; [exact Hd |]. unfold Spec.days, ES.msPerDay. lia.
  - intros p Hd Hp. apply Hin in Hp. destruct Hp as [_ (t & Ht & Hle)].
    rewrite Hd in Ht. injection Ht as <-.
    unfold Spec.days, ES.msPerDay in Hle. lia.
Qed.

End UpcomingOverTime.

Section ChallengeAndGreeting.
Import Dashboard.

(** X20. The bar of a savings challenge is never wider than 100 percent;
    with a target of 0 it is full as soon as something was saved, and its
    width is NaN when nothing was. *)
Theorem challenge_bar_at_most_full :
  forall c,
    (100 <? challengeWidth c)%float = false
    /\ (SavingsChallenge.target_amount c = 0%float ->
        ((0 <? SavingsChallenge.current_amount c)%float = true ->
         challengeWidth c = 100%float)
        /\ (SavingsChallenge.current_amount c = 0%float ->
            challengeWidth c = nan)).
Proof.
  intros c. unfold challengeWidth.
  split; [apply Math_min_le_l |].
  intros ->. split.
  - intros H. rewrite (float_div_zero _ H). reflexivity.
  - intros ->. reflexivity.
Qed.




End ChallengeAndGreeting.

Section MoreRefresh.
Import DataContext.

(** X22. A refresh by a signed-in user always ends with the loading flag
    down; when one of the eight promises is rejected, no snapshot changes;
    without a user the state is left as it is. *)
Theorem refresh_always_stops_loading :
  forall (store : RemoteStore) (user : User.t) (s : State),
    loading (refreshData store (Some user) s) = false
    /\ (forall reason,
           Promise_all (store (User.id user)) = Rejected _ reason ->
           forall c, snapshot c (refreshData store (Some user) s)
                     = snapshot c s)
    /\ refreshData store None s = s.
Proof.
  intros store user s. split; [| split; [| reflexivity]].
  - unfold refreshData. reflexivity.
  - intros reason H c. apply (refreshData_rejected _ _ _ _ c H).
Qed.

(** X23. When the eight queries all come back with rows, the state after
    the refresh is what the store answered, whatever was held before. *)
Theorem refresh_takes_the_store_for_truth :
  forall (store : RemoteStore) (user : User.t) (r : Results),
    Promise_all (store (User.id user)) = Fulfilled _ r ->
    (forall c, data (result c r) <> None) ->
    forall s s',
      refreshData store (Some user) s = refreshData store (Some user) s'.
Proof.
  intros store user r Hr Hall s s'. unfold refreshData. rewrite Hr.
  pose proof (Hall tbl_categories) as H0.
  pose proof (Hall tbl_expenses) as H1.
  pose proof (Hall tbl_budgets) as H2.
  pose proof (Hall tbl_recurring_payments) as H3.
  pose proof (Hall tbl_debts) as H4.
  pose proof (Hall tbl_savings_challenges) as H5.
  pose proof (Hall tbl_regret_purchases) as H6.
  pose proof (Hall tbl_insights) as H7.
  cbn [result Row] in *.
  destruct (data (categoriesResult r)); [| congruence].
  destruct (data (expensesResult r)); [| congruence].
  destruct (data (budgetsResult r)); [| congruence].
  destruct (data (recurringPaymentsResult r)); [| congruence].
  destruct (data (debtsResult r)); [| congruence].
  destruct (data (savingsChallengesResult r)); [| congruence].
  destruct (data (regretPurchasesResult r)); [| congruence].
  destruct (data (insightsResult r)); [| congruence].
  reflexivity.
Qed.

End MoreRefresh.

(* ------------------------------------------------------------------ *)
(** ** The properties on the sample data *)
(* ------------------------------------------------------------------ *)

Import Example.

Lemma IST_regular : ES.regular IST.
Proof. apply fixedOffset_regular. unfold ES.msPerDay. lia. Qed.

(** In New York in March 2025 the weekly and the yearly food budget get
    the same [spent], the sum of the two expenses of the month; in India,
    0.1 and 0.2 add up to a little more than 0.3. *)
Lemma budget_spent_witness :
  (exists p p',
      nth_error
        (Budgets.budgetProgress newYork marchNow [foodWeekly; foodYearly]
           marchFood) 0 = Some p
      /\ nth_error
           (Budgets.budgetProgress newYork marchNow [foodWeekly; foodYearly]
              marchFood) 1 = Some p'
      /\ Budgets.spent p = 3%float
      /\ Budgets.spent p = Budgets.spent p')
  /\ (exists q,
         nth_error (Budgets.budgetProgress IST now [snacks] [tea; biscuits])
                   0 = Some q
         /\ Budgets.spent q = 0.30000000000000004%float).
Proof.
  split.
  - destruct (budget_spent_is_category_month_sum newYork marchNow
                [foodWeekly; foodYearly] marchFood newYork_regular)
      as [H1 H2].
    destruct (H1 0%nat foodWeekly eq_refl) as (p & Hp & Hs).
    destruct (H1 1%nat foodYearly eq_refl) as (p' & Hp' & _).
    exists p, p'. split; [exact Hp |]. split; [exact Hp' |]. split.
    + rewrite Hs. vm_compute. reflexivity.
    + exact (H2 0%nat 1%nat foodWeekly foodYearly p p'
                eq_refl eq_refl eq_refl Hp Hp').
  - destruct (budget_spent_is_category_month_sum IST now [snacks]
                [tea; biscuits] IST_regular) as [H1 _].
    destruct (H1 0%nat snacks eq_refl) as (q & Hq & Hs).
    exists q. split; [exact Hq |]. rewrite Hs. vm_compute. reflexivity.
Defined.

(** Scenario A: 5200 spent against 5000; and expenses of 0.1 and 0.2 put
    a budget of 0.3 over. *)
Lemma budget_percentage_witness :
  (exists p,
      nth_error (Budgets.budgetProgress IST now [foodWeekly] augustFood) 0
      = Some p
      /\ Budgets.percentage p = 100%float
      /\ Budgets.isOverBudget p = true)
  /\ (exists q,
         nth_error (Budgets.budgetProgress IST now [snacks] [tea; biscuits])
                   0 = Some q
         /\ Budgets.isOverBudget q = true).
Proof.
  split.
  - destruct (budget_percentage_clamped_over_budget_unclamped IST now
                [foodWeekly] augustFood IST_regular 0%nat foodWeekly
                eq_refl) as (p & Hp & _ & _ & _ & Hscen).
    assert (Hs : Spec.spent IST now foodWeekly augustFood = 5200%float)
      by (vm_compute; reflexivity).
    destruct (Hscen Hs eq_refl) as [Hover H100].
    exists p. split; [exact Hp |]. split; assumption.
  - destruct (budget_percentage_clamped_over_budget_unclamped IST now
                [snacks] [tea; biscuits] IST_regular 0%nat snacks eq_refl)
      as (q & Hq & _ & _ & Hover & _).
    exists q. split; [exact Hq |]. rewrite Hover. vm_compute. reflexivity.
Defined.

(** Scenario B: the travel budget of 1000 has no expense; and the budget
    of 0.3 is left with a negative remainder. *)
Lemma budget_remaining_witness :
  (exists p,
      nth_error
        (Budgets.budgetProgress IST now [foodWeekly; travel] augustFood) 1
      = Some p
      /\ Budgets.spent p = 0%float
      /\ Budgets.remaining p = 1000%float
      /\ Budgets.percentage p = 0%float
      /\ Budgets.isOverBudget p = false)
  /\ (exists q,
         nth_error (Budgets.budgetProgress IST now [snacks] [tea; biscuits])
                   0 = Some q
         /\ (Budgets.remaining q <? 0)%float = true).
Proof.
  split.
  - destruct (budget_remaining_signed IST now [foodWeekly; travel]
                augustFood IST_regular 1%nat travel eq_refl)
      as (p & Hp & _ & _ & Hscen).
    assert (Hnone : forall e, In e augustFood ->
                              Spec.sameCategory e travel
                              && Spec.dateInCurrentMonth IST now e = false).
    { intros e He. unfold augustFood in He.
      repeat (destruct He as [<- | He]; [vm_compute; reflexivity |]).
      destruct He. }
    destruct (Hscen eq_refl Hnone) as (Hs & Hr & Hpc & Ho).
    exists p. repeat split; assumption.
  - destruct (budget_remaining_signed IST now [snacks] [tea; biscuits]
                IST_regular 0%nat snacks eq_refl)
      as (q & Hq & _ & Hneg & _).
    exists q. split; [exact Hq |]. rewrite Hneg. vm_compute. reflexivity.
Defined.

(** C4, at a payment that fell due a fortnight before the clock was read:
    the dashboard lists it among the upcoming payments, although it is not
    due within the next seven days. *)
Theorem upcoming_payments_list_overdue_payment :
  In overdue
     (Dashboard.upcomingPayments
        (Dashboard.stats
           (Dashboard.render IST now now [] [] [overdue; dueIn3; dueIn8]
              [] [])))
  /\ ~ Spec.dueWithinNext7Days IST now overdue.
Proof.
  split.
  - vm_compute. left. reflexivity.
  - intros (t & Ht & Hle & _).
    vm_compute in Ht. injection Ht as <-. unfold now in Hle. lia.
Qed.

(** The two ends of March 2025 in New York, and the millisecond before
    and after. *)
Lemma month_window_witness :
  In marchFirst
     (Dashboard.monthlyExpenses newYork marchStart marchEnd marchFood)
  /\ In marchLast
        (Dashboard.monthlyExpenses newYork marchStart marchEnd marchFood)
  /\ In marchFirst
        (Budgets.categoryExpenses newYork marchStart marchEnd marchFood
           foodWeekly)
  /\ In marchLast
        (Budgets.categoryExpenses newYork marchStart marchEnd marchFood
           foodWeekly)
  /\ ~ In februaryLast
         (Dashboard.monthlyExpenses newYork marchStart marchEnd marchFood)
  /\ ~ In aprilFirst
         (Dashboard.monthlyExpenses newYork marchStart marchEnd marchFood).
Proof.
  pose proof (month_window_includes_both_ends newYork marchNow marchFood
                newYork_regular) as H.
  destruct (H marchFirst ltac:(right; left; reflexivity)) as [Hs _].
  destruct (H marchLast ltac:(right; right; left; reflexivity)) as [He _].
  destruct (H februaryLast ltac:(left; reflexivity)) as [_ Hf].
  destruct (H aprilFirst ltac:(right; right; right; left; reflexivity))
    as [_ Ha].
  destruct (Hs ltac:(left; vm_compute; reflexivity)) as [Hs1 Hs2].
  destruct (He ltac:(right; vm_compute; reflexivity)) as [He1 He2].
  destruct (Hf ltac:(left; vm_compute; reflexivity)) as [Hf1 _].
  destruct (Ha ltac:(right; vm_compute; reflexivity)) as [Ha1 _].
  split; [exact Hs1 |]. split; [exact He1 |].
  split; [exact (Hs2 foodWeekly eq_refl) |].
  split; [exact (He2 foodWeekly eq_refl) |].
  split; [exact Hf1 | exact Ha1].
Defined.

(** Scenario D, with an expense of July beside the two of August. *)
Lemma dashboard_regret_witness :
  Dashboard.regretSpending
    (Dashboard.stats
       (Dashboard.render IST now now [inJuly; impulse; groceries] [] [] []
          []))
  = 300%float
  /\ Dashboard.totalSpent
       (Dashboard.stats
          (Dashboard.render IST now now [inJuly; impulse; groceries] [] []
             [] []))
     = 1000%float.
Proof.
  destruct (dashboard_regret_and_total_spending IST now now
              [inJuly; impulse; groceries] [] [] [] [] IST_regular)
    as (_ & _ & Hscen).
  apply (Hscen impulse groceries).
  - left. vm_compute. reflexivity.
  - reflexivity.
  - reflexivity.
  - reflexivity.
  - reflexivity.
Defined.

(** The budgets query is refused: the budgets stay, the expenses are
    replaced. *)
Lemma refresh_witness :
  DataContext.budgets (DataContext.refreshData store (Some user) before)
  = [foodWeekly; travel]
  /\ DataContext.expenses (DataContext.refreshData store (Some user) before)
     = [lunch; groceries].
Proof.
  destruct (refresh_keeps_snapshot_of_failed_fetch store user before)
    as [Hkeep Hnew].
  split.
  - exact (Hkeep DataContext.tbl_budgets eq_refl).
  - exact (Hnew _ DataContext.tbl_expenses [lunch; groceries]
                eq_refl eq_refl).
Defined.

(** An unticked regret box clears the reason and the intensity typed
    before; the empty category and location become [null]. *)
Lemma submitted_expense_witness :
  exists r,
    In (QuickExpense.Insert [r])
       (QuickExpense.onSubmit IST (Some user) (fun _ => None) form)
    /\ QuickExpense.row_regret_reason r = QuickExpense.null
    /\ QuickExpense.row_regret_intensity r = QuickExpense.null
    /\ QuickExpense.row_category_id r = QuickExpense.null
    /\ QuickExpense.row_location r = QuickExpense.null.
Proof.
  destruct (submitted_expense_has_no_regret_data_without_flag
              IST (Some user) (fun _ => None) form) as [Hinv Hsub].
  destruct (Hsub user "2025-08-15T00:00:00.000Z"%string eq_refl
              ltac:(vm_compute; reflexivity)) as [r Hr].
  pose proof (Hinv [r] Hr) as HF.
  apply Forall_inv in HF.
  destruct HF as (Hflag & Hregret & Hcat & Hloc & _).
  destruct (Hregret Hflag) as [Hreason Hintensity].
  exists r. split; [exact Hr |]. split; [exact Hreason |].
  split; [exact Hintensity |].
  split; [exact (Hcat eq_refl) | exact (Hloc eq_refl)].
Defined.

(** The budget of 0.3 is flagged as over and its remainder is negative. *)
Lemma over_budget_witness :
  exists p,
    In p (Budgets.budgetProgress IST now [snacks] [tea; biscuits])
    /\ Budgets.isOverBudget p = (Budgets.remaining p <? 0)%float
    /\ Budgets.isOverBudget p = true.
Proof.
  set (p := Budgets.progressOf IST monthStart monthEnd [tea; biscuits]
              snacks).
  assert (Hin : In p (Budgets.budgetProgress IST now [snacks]
                        [tea; biscuits])) by (left; reflexivity).
  exists p. split; [exact Hin |]. split.
  - exact (over_budget_exactly_when_remaining_negative IST now [snacks]
             [tea; biscuits] p Hin).
  - vm_compute. reflexivity.
Defined.

(** A budget of 0 on food in August 2025. *)
Lemma zero_budget_witness :
  exists p,
    In p (Budgets.budgetProgress IST now [zeroBudget] augustFood)
    /\ Budgets.percentage p = 100%float
    /\ Budgets.isOverBudget p = true.
Proof.
  set (p := Budgets.progressOf IST monthStart monthEnd augustFood
              zeroBudget).
  assert (Hin : In p (Budgets.budgetProgress IST now [zeroBudget]
                        augustFood)) by (left; reflexivity).
  destruct (budget_of_zero_amount IST now [zeroBudget] augustFood p Hin
              eq_refl) as [_ H].
  exists p. split; [exact Hin |]. apply H. vm_compute. reflexivity.
Defined.

(** The impulse buy has no category: it changes nothing. *)
Lemma unmatched_expense_witness :
  Budgets.budgetProgress IST now [foodWeekly; travel]
    ([lunch] ++ impulse :: [groceries])
  = Budgets.budgetProgress IST now [foodWeekly; travel]
      ([lunch] ++ [groceries]).
Proof.
  apply (budget_progress_ignores_unmatched_expense IST now IST_regular).
  intros B [<- | [<- | []]]; vm_compute; reflexivity.
Defined.

(** The groceries come after the lunch: 5000 and then 5700. *)
Lemma matched_expense_witness :
  exists p p',
    nth_error (Budgets.budgetProgress IST now [foodWeekly] [lunch]) 0
    = Some p
    /\ nth_error
         (Budgets.budgetProgress IST now [foodWeekly] ([lunch] ++ [groceries]))
         0 = Some p'
    /\ Budgets.spent p = 5000%float
    /\ Budgets.spent p' = 5700%float.
Proof.
  destruct (budget_progress_counts_matched_expense IST now IST_regular
              [foodWeekly] [lunch] groceries 0%nat foodWeekly eq_refl
              eq_refl ltac:(vm_compute; reflexivity))
    as (p & p' & Hp & Hp' & Hs & _).
  exists p, p'. split; [exact Hp |]. split; [exact Hp' |].
  assert (H : Budgets.spent p = 5000%float).
  { injection Hp as <-. vm_compute. reflexivity. }
  split; [exact H |]. rewrite Hs, H. reflexivity.
Defined.

(** In New York, 5 and 15 March 2025 lie on either side of the clock
    change and give the same results. *)
Lemma stable_within_month_witness :
  Budgets.budgetProgress newYork afterClockChange [foodWeekly] marchFood
  = Budgets.budgetProgress newYork marchNow [foodWeekly] marchFood.
Proof.
  destruct (results_stable_within_month newYork newYork_regular marchNow
              afterClockChange ltac:(vm_compute; reflexivity)) as [H _].
  apply H.
Defined.

(** In India the instant at which the clock is read is within the
    window, and the last millisecond of July is not. *)
Lemma calendar_month_witness :
  DateFns.isWithinInterval (Some now)
    {| DateFns.start := monthStart; DateFns.end_ := monthEnd |} = true
  /\ DateFns.isWithinInterval (Some 1753986599999)
       {| DateFns.start := monthStart; DateFns.end_ := monthEnd |} = false.
Proof.
  assert (H : - ES.msPerDay <= 19800000 <= ES.msPerDay)
    by (unfold ES.msPerDay; lia).
  unfold monthStart, monthEnd, IST. split.
  - rewrite (window_is_calendar_month_on_fixed_offset 19800000 H now now).
    vm_compute. reflexivity.
  - rewrite (window_is_calendar_month_on_fixed_offset 19800000 H now
               1753986599999).
    vm_compute. reflexivity.
Defined.

(** The lunch is counted on 15 and on 16 August: one month. *)
Lemma one_month_witness : Spec.inCurrentMonth IST now nextDay = true.
Proof.
  assert (H : - ES.msPerDay <= 19800000 <= ES.msPerDay)
    by (unfold ES.msPerDay; lia).
  apply (expense_counted_in_one_month 19800000 H now nextDay augustFood
           lunch).
  - apply in_filter;
      [right; right; left; reflexivity | vm_compute; reflexivity].
  - apply in_filter;
      [right; right; left; reflexivity | vm_compute; reflexivity].
Defined.

(** An expense entered at the very instant of the evaluation. *)
Lemma dated_now_witness :
  In atNow
     (Dashboard.monthlyExpenses IST monthStart monthEnd [inJuly; atNow])
  /\ In atNow
        (Budgets.categoryExpenses IST monthStart monthEnd [inJuly; atNow]
           foodWeekly).
Proof.
  assert (H : - ES.msPerDay <= 19800000 <= ES.msPerDay)
    by (unfold ES.msPerDay; lia).
  destruct (expense_dated_now_is_counted 19800000 H now [inJuly; atNow]
              atNow ltac:(right; left; reflexivity)
              ltac:(vm_compute; reflexivity)) as [H1 H2].
  split; [exact H1 | exact (H2 foodWeekly eq_refl)].
Defined.

(** A yearly budget saved on 15 August 2025 in India is dated from
    31 July 18:30 UTC to 31 August 18:29:59.999 UTC. *)
Lemma saved_budget_witness :
  exists d,
    filter Budgets.isWrite
      (Budgets.onSubmit IST now (Some user) None accepting budgetForm)
    = [Budgets.Insert [d]]
    /\ Budgets.data_period d = yearly
    /\ newDate EST (Budgets.data_start_date d) = monthStart
    /\ newDate EST (Budgets.data_end_date d) = monthEnd.
Proof.
  destruct (saved_budget_spans_the_current_month IST now user None
              accepting budgetForm IST_regular
              ltac:(vm_compute; split; discriminate)
              ltac:(vm_compute; split; discriminate))
    as (d & Hw & _ & _ & _ & Hp & Hd).
  exists d. split; [exact Hw |]. split; [exact Hp |]. exact (Hd EST).
Defined.

(** The date stored for the tea of 15 August reads back as that day's
    midnight in UTC, also five hours west of Greenwich. *)
Lemma stored_date_witness :
  exists r,
    In (QuickExpense.Insert [r])
       (QuickExpense.onSubmit IST (Some user) (fun _ => None) form)
    /\ newDate EST (QuickExpense.row_date r) = Some 1755216000000.
Proof.
  set (events := QuickExpense.onSubmit IST (Some user) (fun _ => None)
                   form).
  assert (Hin : exists r, In (QuickExpense.Insert [r]) events)
    by (eexists; right; left; reflexivity).
  destruct Hin as [r Hr]. exists r. split; [exact Hr |].
  apply (stored_expense_date_round_trip IST (Some user) (fun _ => None)
           form 1755216000000 [r] ltac:(vm_compute; reflexivity)
           ltac:(vm_compute; split; discriminate) Hr r EST).
  left. reflexivity.
Defined.

(** On 15 August 2025, 14:32 UTC, the form proposes 15 August. *)
Lemma default_date_witness :
  exists v,
    QuickExpense.defaultValues now = Some v
    /\ newDate IST (QuickExpense.date v) = Some 1755216000000.
Proof.
  destruct (QuickExpense.defaultValues now) as [v |] eqn:E;
    [| discriminate E].
  exists v. split; [reflexivity |].
  destruct (default_date_is_today_in_utc IST now v
              ltac:(vm_compute; split; discriminate) E) as [H _].
  rewrite H. vm_compute. reflexivity.
Defined.

(** An expense entered for 1 August 2025: counted in August in India, not
    five hours west of Greenwich. *)
Lemma host_offset_witness :
  In firstOfAugust
     (Dashboard.monthlyExpenses IST monthStart monthEnd [firstOfAugust])
  /\ ~ In firstOfAugust
         (Dashboard.monthlyExpenses EST (DateFns.startOfMonth EST (Some now))
            (DateFns.endOfMonth EST (Some now)) [firstOfAugust]).
Proof.
  split.
  - refine (proj2 (first_day_entry_depends_on_host_offset 19800000 now
                     [firstOfAugust] firstOfAugust _ _ _) _).
    + unfold ES.msPerDay. lia.
    + left. reflexivity.
    + vm_compute. reflexivity.
    + lia.
  - intros H.
    refine (_ (proj1 (first_day_entry_depends_on_host_offset (-18000000)
                        now [firstOfAugust] firstOfAugust _ _ _) H)).
    + lia.
    + unfold ES.msPerDay. lia.
    + left. reflexivity.
    + vm_compute. reflexivity.
Defined.

(** With the one expense of July, nothing is counted in August. *)
Lemma empty_month_witness :
  Dashboard.expenseCount
    (Dashboard.stats (Dashboard.render IST now now [inJuly] [foodWeekly]
                        [] [] [])) = 0%nat
  /\ Dashboard.budgetRemaining
       (Dashboard.stats (Dashboard.render IST now now [inJuly] [foodWeekly]
                           [] [] [])) = 5000%float.
Proof.
  destruct (month_without_expenses IST now now [inJuly] [foodWeekly] [] []
              [] IST_regular) as (Hc & _ & _ & Hb).
  - intros e [<- | []]. vm_compute. reflexivity.
  - split; [exact Hc |]. rewrite Hb. vm_compute. reflexivity.
Defined.

(** The payment due on 18 August is listed on the 15th, and still on the
    16th. *)
Lemma upcoming_over_time_witness :
  In dueIn3
     (Dashboard.upcomingPayments
        (Dashboard.stats
           (Dashboard.render IST now nextDay [] [] [dueIn3; dueIn8] [] []))).
Proof.
  destruct (upcoming_payments_over_time IST now now [] [] [dueIn3; dueIn8]
              [] [] nextDay ltac:(unfold nextDay; lia)) as [H _].
  apply H. vm_compute. left. reflexivity.
Defined.

(** Whatever was held before, the state after a full refresh is the
    same. *)
Lemma store_for_truth_witness :
  DataContext.refreshData fullStore (Some user) before
  = DataContext.refreshData fullStore (Some user) DataContext.initial.
Proof.
  apply (refresh_takes_the_store_for_truth fullStore user _ eq_refl).
  intros c. destruct c; discriminate.
Defined.

(** Scenario C: due in three days, listed; due in eight days, not. *)
Lemma upcoming_within_week_witness :
  In dueIn3 upcoming /\ ~ In dueIn8 upcoming.
Proof.
  unfold upcoming.
  destruct (upcoming_payments_within_week_ahead IST now now [] []
              [overdue; dueIn3; dueIn8] [] []) as (_ & H3 & H8).
  split.
  - apply (H3 dueIn3); [right; left; reflexivity | vm_compute; reflexivity].
  - apply (H8 dueIn8). vm_compute. reflexivity.
Defined.
